(** * The cleaning pipeline of [sierra_leone_eda.ipynb]

    A shallow embedding of cells 3 and 5 of the notebook: the missing-value
    report, the z-score outlier report, the median imputation loop, the
    removal of the [Comments] column, the clipping at zero and the export.

    The notebook is a straight line of pandas / scipy calls over one
    [DataFrame], so the embedding has two layers:

    - the library layer gives each call the notebook makes ([isna], [zscore]
      with [nan_policy='omit'], [median], [fillna], [drop] with
      [errors='ignore'], [clip] with [lower=0], [to_csv] with [index=False])
      a definition that follows the library's documented behaviour on the
      arguments the notebook passes;
    - the notebook layer is the code of the cells, statement by statement,
      in an error monad ([KeyError], [TypeError]).

    Cell 9, the table of mean module readings per cleaning flag, is
    embedded in the same way.

    Numbers are IEEE binary64, as in Python: the kernel's primitive floats,
    with sums taken in the order numpy and pandas take them.  A missing
    cell of a float column is NaN, as in pandas. *)

From Stdlib Require Import List String Bool ZArith Lia Uint63.
From Stdlib Require Import PrimFloat SpecFloat FloatOps FloatAxioms.
From Stdlib Require Import Sorted Permutation.
Import ListNotations.

Local Open Scope string_scope.
Local Open Scope list_scope.

(** A decimal literal stands for the nearest binary64, as in Python. *)
Set Warnings "-inexact-float".

(** ** Binary64 helpers *)

Module F64.

Local Open Scope float_scope.

(** [int -> float] conversion of numpy ([astype(float64)]): the integer
    rounded to the nearest binary64, ties to even; exact for magnitudes up
    to 2^53. *)
Definition of_Z (z : Z) : float :=
  SF2Prim (binary_normalize prec emax z 0 false).

Definition of_nat (n : nat) : float := of_uint63 (Uint63.of_Z (Z.of_nat n)).

Definition notna (x : float) : bool := negb (is_nan x).

(** The sum of a contiguous array as numpy's [add.reduce] takes it: fewer
    than eight values are added one after the other; up to 128 values are
    added in eight interleaved running sums, which are then added in pairs,
    and the last [n mod 8] values are added to that; a longer array is cut
    in two near its middle, at a multiple of eight, and the sums of the two
    parts are added.  (A sum that is a zero may differ from numpy's in the
    sign of that zero, which no comparison below can see.) *)
Fixpoint zip_add (r xs : list float) : list float :=
  match r, xs with
  | a :: r', x :: xs' => (a + x) :: zip_add r' xs'
  | _, _ => r
  end.

Fixpoint add_blocks (k : nat) (r xs : list float)
  : list float * list float :=
  match k with
  | O => (r, xs)
  | S k' => add_blocks k' (zip_add r (firstn 8 xs)) (skipn 8 xs)
  end.

Definition sum_sequential (init : float) (xs : list float) : float :=
  fold_left add xs init.

Definition sum_eight (r : list float) : float :=
  match r with
  | [r0; r1; r2; r3; r4; r5; r6; r7] =>
      ((r0 + r1) + (r2 + r3)) + ((r4 + r5) + (r6 + r7))
  | _ => sum_sequential 0 r
  end.

Definition sum_block (xs : list float) : float :=
  let n := List.length xs in
  let '(r, rest) := add_blocks (n / 8 - 1) (firstn 8 xs) (skipn 8 xs) in
  sum_sequential (sum_eight r) rest.

(** [fuel] bounds the depth of the halving; the length of the array is
    more than enough. *)
Fixpoint pairwise_sum (fuel : nat) (xs : list float) : float :=
  let n := List.length xs in
  if Nat.ltb n 8 then sum_sequential 0 xs
  else if Nat.leb n 128 then sum_block xs
  else
    match fuel with
    | O => sum_block xs
    | S fuel' =>
        let n2 := (n / 2 - (n / 2) mod 8)%nat in
        pairwise_sum fuel' (firstn n2 xs) + pairwise_sum fuel' (skipn n2 xs)
    end.

Definition sum (xs : list float) : float :=
  pairwise_sum (List.length xs) xs.

(** The sum pandas keeps for one group of [groupby]: each value is added
    with the rounding error of the additions before it taken off
    (Kahan), and an error that is NaN, after an infinite value, is dropped. *)
Fixpoint kahan_sum (xs : list float) (s c : float) : float :=
  match xs with
  | [] => s
  | x :: xs' =>
      let y := x - c in
      let t := s + y in
      let c' := t - s - y in
      kahan_sum xs' t (if is_nan c' then 0 else c')
  end.

(** The mean of a group: NaN without values. *)
Definition kahan_mean (xs : list float) : float :=
  match xs with
  | [] => nan
  | _ => kahan_sum xs 0 0 / of_nat (List.length xs)
  end.

(** [np.mean]: sum over count (0/0 = NaN on the empty list). *)
Definition mean (xs : list float) : float := sum xs / of_nat (List.length xs).

(** [np.std] with [ddof=0]: the root of the mean squared deviation. *)
Definition std (xs : list float) : float :=
  let m := mean xs in
  sqrt (sum (map (fun x => (x - m) * (x - m)) xs) / of_nat (List.length xs)).

(** An array that numpy converts on the way to the sum (an [int64] array
    summed as [float64]) goes through a buffer, [bufsize] values at a
    time (8192 by default): each bufferful is summed as above and the
    sums are added one after the other.  [xs] is the array as converted; [fuel] bounds the
    number of bufferfuls. *)
Definition bufsize : nat := (8 * 1024)%nat.

Fixpoint add_buffers (fuel : nat) (acc : float) (xs : list float) : float :=
  match fuel, xs with
  | S fuel', _ :: _ =>
      add_buffers fuel' (acc + sum (firstn bufsize xs)) (skipn bufsize xs)
  | _, _ => acc
  end.

Definition sum_cast (xs : list float) : float :=
  add_buffers (List.length xs) (sum (firstn bufsize xs)) (skipn bufsize xs).

(** [np.mean] and [np.std] of an [int64] array: the sum of the values is
    taken through the buffer; the squared deviations are floats already. *)
Definition mean_cast (xs : list float) : float :=
  sum_cast xs / of_nat (List.length xs).

Definition std_cast (xs : list float) : float :=
  let m := mean_cast xs in
  sqrt (sum (map (fun x => (x - m) * (x - m)) xs) / of_nat (List.length xs)).

(** The order of the non-missing values. *)
Definition le (a b : float) : Prop := (a <=? b) = true.

(** Insertion into an ascending list, then insertion sort. *)
Fixpoint insert (x : float) (l : list float) : list float :=
  match l with
  | [] => [x]
  | y :: l' => if x <=? y then x :: l else y :: insert x l'
  end.

Fixpoint sort (l : list float) : list float :=
  match l with
  | [] => []
  | x :: l' => insert x (sort l')
  end.

(** [np.median] of a NaN-free array: the mean of the middle element (odd
    length, [x / 1]) or of the two middle elements (even length,
    [(a + b) / 2]); NaN on the empty array. *)
Definition median (xs : list float) : float :=
  let s := sort xs in
  let n := List.length s in
  match n with
  | O => nan
  | _ =>
      if Nat.even n
      then (nth (n / 2 - 1) s nan + nth (n / 2) s nan) / 2
      else nth (n / 2) s nan / 1
  end.

End F64.

(** ** Errors *)

Inductive error : Type :=
| KeyError (label : string)      (* a column label that the frame lacks *)
| TypeError (label : string).    (* arithmetic on a column of dtype object *)

Inductive result (A : Type) : Type :=
| Ok (a : A)
| Err (e : error).
Arguments Ok {A} a.
Arguments Err {A} e.

Definition rbind {A B} (r : result A) (k : A -> result B) : result B :=
  match r with
  | Ok a => k a
  | Err e => Err e
  end.

Fixpoint rmap {A B} (f : A -> result B) (l : list A) : result (list B) :=
  match l with
  | [] => Ok []
  | a :: l' =>
      rbind (f a) (fun b => rbind (rmap f l') (fun bs => Ok (b :: bs)))
  end.

(** ** The data model: a pandas [DataFrame] as [read_csv] builds it *)

(** A column carries one dtype.  [read_csv] yields [float64] for a numeric
    column with decimals or with empty fields (NaN marks the missing cells),
    [int64] for a column of integers without empty fields, and [object] for
    text, where an empty field is again the NaN marker, here [None].  A file
    that has only its header gives every column the dtype [object] and no
    row.  The numeric calls of the notebook ([zscore], [median], [clip])
    raise on a column of text; [median] and [clip] return on the column of
    dtype [object] without any row. *)
Inductive column : Type :=
| FloatCol (xs : list float)
| IntCol (zs : list Z)
| ObjCol (ss : list (option string)).

(** Columns in file order, labelled by the header. *)
Definition DataFrame : Type := list (string * column).

Module Pd.

Local Open Scope float_scope.

Definition col_length (c : column) : nat :=
  match c with
  | FloatCol xs => List.length xs
  | IntCol zs => List.length zs
  | ObjCol ss => List.length ss
  end.

(** [len(df)]: the length of the index, which every column shares. *)
Definition len (df : DataFrame) : nat :=
  match df with
  | [] => O
  | (_, c) :: _ => col_length c
  end.

Definition labels (df : DataFrame) : list string := map fst df.

(** What [read_csv] guarantees: every column has the length of the index. *)
Definition aligned (df : DataFrame) : bool :=
  forallb (fun lc => Nat.eqb (col_length (snd lc)) (len df)) df.

Fixpoint lookup (df : DataFrame) (label : string) : option column :=
  match df with
  | [] => None
  | (l, c) :: df' => if String.eqb l label then Some c else lookup df' label
  end.

(** [df[label]] *)
Definition getitem (df : DataFrame) (label : string) : result column :=
  match lookup df label with
  | Some c => Ok c
  | None => Err (KeyError label)
  end.

(** [df[labels]]: the sub-frame of the listed columns, in the listed
    order; [KeyError] when a label is not a column. *)
Definition getitems (df : DataFrame) (ls : list string)
  : result DataFrame :=
  rmap (fun l => rbind (getitem df l) (fun c => Ok (l, c))) ls.

(** [df[label] = c]: an existing column is replaced where it stands, a new
    label is appended. *)
Definition setitem (df : DataFrame) (label : string) (c : column)
  : DataFrame :=
  match lookup df label with
  | Some _ =>
      map (fun lc => if String.eqb (fst lc) label then (fst lc, c) else lc)
        df
  | None => df ++ [(label, c)]
  end.

(** [df[labels] = sub], column by column. *)
Definition setitems (df sub : DataFrame) : DataFrame :=
  fold_left (fun d lc => setitem d (fst lc) (snd lc)) sub df.

(** [Series.isna()] *)
Definition isna (c : column) : list bool :=
  match c with
  | FloatCol xs => map is_nan xs
  | IntCol zs => map (fun _ => false) zs
  | ObjCol ss =>
      map (fun s => match s with None => true | Some _ => false end) ss
  end.

(** [Series.isna().sum()] *)
Definition count_na (c : column) : nat :=
  List.length (filter (fun b => b) (isna c)).

(** The non-missing values of a numeric column as floats (the values
    [median], [mean] and [std] work on with [skipna]); text has none to
    give and raises, but a column of dtype object without any row (every
    column of a file that has only its header) has no value and raises
    nothing. *)
Definition dropna_values (label : string) (c : column)
  : result (list float) :=
  match c with
  | FloatCol xs => Ok (filter F64.notna xs)
  | IntCol zs => Ok (map F64.of_Z zs)
  | ObjCol [] => Ok []
  | ObjCol (_ :: _) => Err (TypeError label)
  end.

(** [Series.median()] ([skipna=True]): the median of the non-missing
    values, NaN when there is none. *)
Definition median (label : string) (c : column) : result float :=
  rbind (dropna_values label c) (fun vs => Ok (F64.median vs)).

(** [Series.fillna(value)]: every missing cell takes [value], every other
    cell keeps its own.  An [int64] column has no missing cell. *)
Definition fillna_float (value x : float) : float :=
  if is_nan x then value else x.

Definition fillna (c : column) (value : float) : column :=
  match c with
  | FloatCol xs => FloatCol (map (fillna_float value) xs)
  | IntCol zs => IntCol zs
  | ObjCol ss => ObjCol ss
  end.

(** [df.drop(columns=ls, errors='ignore')]: the frame without the listed
    columns; a label that is not a column is skipped. *)
Definition drop (df : DataFrame) (ls : list string) : DataFrame :=
  filter (fun lc => negb (existsb (String.eqb (fst lc)) ls)) df.

(** [clip(lower=0)] on one cell: pandas keeps the cell where it is missing
    or [>= lower] and writes [lower] elsewhere. *)
Definition clip_float (x : float) : float :=
  if is_nan x || (0 <=? x) then x else 0.

Definition clip_int (z : Z) : Z :=
  if (0 <=? z)%Z then z else 0%Z.

(** Text cannot be compared with the bound; a column of dtype object
    without any row has nothing to compare and is returned as it is. *)
Definition clip_col (label : string) (c : column) : result column :=
  match c with
  | FloatCol xs => Ok (FloatCol (map clip_float xs))
  | IntCol zs => Ok (IntCol (map clip_int zs))
  | ObjCol [] => Ok (ObjCol [])
  | ObjCol (_ :: _) => Err (TypeError label)
  end.

(** [DataFrame.clip(lower=0)] *)
Definition clip (df : DataFrame) : result DataFrame :=
  rmap (fun lc => rbind (clip_col (fst lc) (snd lc))
                    (fun c => Ok (fst lc, c))) df.

(** One field of the written file; a missing cell is written as the empty
    field ([na_rep='']).  The text of a number is not modelled. *)
Inductive field : Type :=
| Empty
| Float (x : float)
| Int (z : Z)
| Text (s : string).

Definition field_at (c : column) (i : nat) : field :=
  match c with
  | FloatCol xs =>
      let x := nth i xs nan in if is_nan x then Empty else Float x
  | IntCol zs => Int (nth i zs 0%Z)
  | ObjCol ss =>
      match nth i ss None with
      | Some s => Text s
      | None => Empty
      end
  end.

Record csv : Type := {
  header : list string;
  records : list (list field);
}.

(** [df.to_csv(path, index=False)]: the header, then one record per row in
    index order, without the index. *)
Definition to_csv (df : DataFrame) : csv :=
  {| header := labels df;
     records :=
       map (fun i => map (fun lc => field_at (snd lc) i) df)
         (seq 0 (len df)) |}.

(** [df[mask]] with a boolean series: the rows where the mask is true, in
    index order.  (pandas refuses a mask that is not as long as the index;
    the notebook's mask is computed from the frame itself.) *)
Definition mask_list {A} (mask : list bool) (l : list A) : list A :=
  map snd (filter fst (combine mask l)).

Definition mask_col (mask : list bool) (c : column) : column :=
  match c with
  | FloatCol xs => FloatCol (mask_list mask xs)
  | IntCol zs => IntCol (mask_list mask zs)
  | ObjCol ss => ObjCol (mask_list mask ss)
  end.

Definition mask_rows (df : DataFrame) (mask : list bool) : DataFrame :=
  map (fun lc => (fst lc, mask_col mask (snd lc))) df.

(** *** [groupby(...)[...].mean().reset_index()] *)

Section Grouping.

Context {A : Type} (eqb leb : A -> A -> bool).

(** The distinct values of a list, each at its first appearance. *)
Fixpoint uniques (l : list A) : list A :=
  match l with
  | [] => []
  | a :: l' => a :: filter (fun b => negb (eqb a b)) (uniques l')
  end.

Fixpoint insert_by (a : A) (l : list A) : list A :=
  match l with
  | [] => [a]
  | b :: l' => if leb a b then a :: l else b :: insert_by a l'
  end.

Fixpoint sort_by (l : list A) : list A :=
  match l with
  | [] => []
  | a :: l' => insert_by a (sort_by l')
  end.

(** The group keys of [groupby] ([sort=True]): the distinct values,
    ascending. *)
Definition group_keys (l : list A) : list A := sort_by (uniques l).

End Grouping.

Definition somes {A} (l : list (option A)) : list A :=
  flat_map (fun o => match o with Some a => [a] | None => [] end) l.

(** The keys of the groups of a column, as a column of the same dtype; a
    row whose key is missing is in no group ([dropna=True]). *)
Definition group_index (c : column) : column :=
  match c with
  | FloatCol xs =>
      FloatCol (group_keys PrimFloat.eqb PrimFloat.leb (filter F64.notna xs))
  | IntCol zs => IntCol (group_keys Z.eqb Z.leb zs)
  | ObjCol ss =>
      ObjCol (map Some (group_keys String.eqb String.leb (somes ss)))
  end.

(** One mask per group, in key order: the rows whose key is the group's. *)
Definition group_masks (c : column) : list (list bool) :=
  match c with
  | FloatCol xs =>
      map (fun k => map (fun x => k =? x) xs)
        (group_keys PrimFloat.eqb PrimFloat.leb (filter F64.notna xs))
  | IntCol zs =>
      map (fun k => map (Z.eqb k) zs) (group_keys Z.eqb Z.leb zs)
  | ObjCol ss =>
      map (fun k =>
             map (fun s =>
                    match s with
                    | Some t => String.eqb k t
                    | None => false
                    end) ss)
        (group_keys String.eqb String.leb (somes ss))
  end.

(** The mean of the non-missing values of one group, in row order, NaN
    when it has none. *)
Definition group_mean (c : column) (mask : list bool) : float :=
  match c with
  | FloatCol xs => F64.kahan_mean (filter F64.notna (mask_list mask xs))
  | IntCol zs => F64.kahan_mean (map F64.of_Z (mask_list mask zs))
  | ObjCol _ => nan
  end.

(** The means of a value column, one per group; text has no mean. *)
Definition group_means (label : string) (c : column)
  (masks : list (list bool)) : result column :=
  match c with
  | ObjCol _ => Err (TypeError label)
  | _ => Ok (FloatCol (map (group_mean c) masks))
  end.

(** [df.groupby(key)[cols].mean().reset_index()]: one row per group, the
    key first, then the mean of each listed column. *)
Definition groupby_mean (df : DataFrame) (key : string) (cols : list string)
  : result DataFrame :=
  rbind (getitem df key) (fun kc =>
  rbind (getitems df cols) (fun sub =>
  rbind (rmap (fun lc =>
                 rbind (group_means (fst lc) (snd lc) (group_masks kc))
                   (fun m => Ok (fst lc, m))) sub) (fun means =>
  Ok ((key, group_index kc) :: means)))).

(** The cell under row [i] of a column, as the file would show it, or
    nothing past the end of the column. *)
Definition cell_at (c : column) (i : nat) : option field :=
  if Nat.ltb i (col_length c) then Some (field_at c i) else None.

End Pd.

Module Scipy.

Local Open Scope float_scope.

(** [_isconst]: no non-missing value, or all equal to the first. *)
Definition isconst (ys : list float) : bool :=
  match ys with
  | [] => true
  | y0 :: _ => forallb (fun y => y0 =? y) ys
  end.

(** The score of one cell of a column whose non-missing values are [ys]:
    [(x - mean) / std], NaN for a constant column (its zero deviation is
    never divided by) and, NaN propagating through the subtraction, for a
    missing cell. *)
Definition score (ys : list float) (x : float) : float :=
  if isconst ys then nan else (x - F64.mean ys) / F64.std ys.

(** [scipy.stats.zscore(a, nan_policy='omit')] with the defaults [axis=0]
    and [ddof=0]: mean and deviation over the non-missing values, one
    score per cell. *)
Definition zscore_floats (xs : list float) : list float :=
  map (score (filter F64.notna xs)) xs.

(** [_isconst] on an [int64] array compares the integers. *)
Definition isconst_int (zs : list Z) : bool :=
  match zs with
  | [] => true
  | z0 :: _ => forallb (Z.eqb z0) zs
  end.

(** The score of one cell, converted to [x], of an [int64] column [zs]:
    the column has no missing cell and is scored against all its values,
    converted. *)
Definition score_int (zs : list Z) (x : float) : float :=
  let ys := map F64.of_Z zs in
  if isconst_int zs then nan else (x - F64.mean_cast ys) / F64.std_cast ys.

(** On a column; text cannot be scored. *)
Definition zscore (label : string) (c : column) : result (list float) :=
  match c with
  | FloatCol xs => Ok (zscore_floats xs)
  | IntCol zs => Ok (map (score_int zs) (map F64.of_Z zs))
  | ObjCol _ => Err (TypeError label)
  end.

End Scipy.

(** ** The notebook *)

(** The notebook keeps one frame in the variable [df], reads it, assigns to
    its columns and rebinds it.  A statement is a computation over that
    variable which may raise. *)
Definition M (A : Type) : Type := DataFrame -> result (A * DataFrame).

Definition ret {A} (a : A) : M A := fun df => Ok (a, df).

Definition bind {A B} (m : M A) (k : A -> M B) : M B :=
  fun df =>
    match m df with
    | Ok (a, df') => k a df'
    | Err e => Err e
    end.

(** Read [df]. *)
Definition get : M DataFrame := fun df => Ok (df, df).

(** Assign to [df] (in place or by rebinding: the notebook holds no other
    reference to the frame). *)
Definition put (df' : DataFrame) : M unit := fun _ => Ok (tt, df').

(** A library call that returns or raises. *)
Definition call {A} (r : result A) : M A :=
  fun df =>
    match r with
    | Ok a => Ok (a, df)
    | Err e => Err e
    end.

Declare Scope nb_scope.
Delimit Scope nb_scope with nb.
Notation "x <- m ;; k" := (bind m (fun x => k))
  (at level 61, m at next level, right associativity) : nb_scope.
Notation "m ;;; k" := (bind m (fun _ => k))
  (at level 61, right associativity) : nb_scope.

(** [for x in xs: body(x)] *)
Fixpoint for_each {A} (xs : list A) (body : A -> M unit) : M unit :=
  match xs with
  | [] => ret tt
  | x :: xs' => bind (body x) (fun _ => for_each xs' body)
  end.

Module Notebook.

Local Open Scope float_scope.
Local Open Scope nb_scope.

(** *** Cell 3: profiling *)

(** One row of [missing_report], labelled by the column it describes. *)
Record report_row : Type := {
  label : string;
  Missing_Values : nat;
  Percentage : float;
}.

(** [missing_values = df.isna().sum()] *)
Definition missing_values (df : DataFrame) : list (string * nat) :=
  map (fun lc => (fst lc, Pd.count_na (snd lc))) df.

(** [missing_percentage = (df.isna().sum() / len(df)) * 100] *)
Definition missing_percentage (df : DataFrame) : list (string * float) :=
  map (fun lc =>
         (fst lc,
          F64.of_nat (Pd.count_na (snd lc)) / F64.of_nat (Pd.len df) * 100))
    df.

(** [missing_report = pd.DataFrame({'Missing Values': missing_values,
    'Percentage': missing_percentage})]: the two series joined on their
    common index, the column labels of [df]. *)
Definition missing_report (df : DataFrame) : list report_row :=
  map (fun vp =>
         {| label := fst (fst vp);
            Missing_Values := snd (fst vp);
            Percentage := snd (snd vp) |})
    (combine (missing_values df) (missing_percentage df)).

(** What the cell prints: [missing_report[missing_report['Percentage'] > 5]]. *)
Definition printed_missing_report (df : DataFrame) : list report_row :=
  filter (fun r => 5 <? Percentage r) (missing_report df).

(** The cell: [df] is only read.  ([df.describe()] is printed as well and
    is not modelled.) *)
Definition profile : M (list report_row) :=
  df <- get ;;
  ret (missing_report df).

(** *** Cell 5: outlier detection and cleaning *)

Definition key_columns : list string :=
  ["GHI"; "DNI"; "DHI"; "ModA"; "ModB"; "WS"; "WSgust"].

(** [df[key_columns].apply(zscore, nan_policy='omit')]: one column of
    scores per key column. *)
Definition z_scores (df : DataFrame) : result (list (string * list float)) :=
  rbind (Pd.getitems df key_columns) (fun sub =>
  rmap (fun lc => rbind (Scipy.zscore (fst lc) (snd lc))
                    (fun zs => Ok (fst lc, zs))) sub).

(** [(z.abs() > 3)], cell by cell. *)
Definition exceeds (z : float) : bool := 3 <? abs z.

(** [.any(axis=1)] over [n] rows: row [i] is true when some column is true
    at [i]. *)
Definition any_axis1 (n : nat) (cols : list (list bool)) : list bool :=
  map (fun i => existsb (fun col => nth i col false) cols) (seq 0 n).

(** [outliers = (z_scores.abs() > 3).any(axis=1)] *)
Definition outliers (df : DataFrame) : result (list bool) :=
  rbind (z_scores df) (fun zs =>
  Ok (any_axis1 (Pd.len df) (map (fun lz => map exceeds (snd lz)) zs))).

(** What the cell prints about the outliers: their number
    ([outliers.sum()]) and the index of each flagged row (the rows of
    [df[outliers][key_columns]]). *)
Record outlier_report : Type := {
  flags : list bool;
  count : nat;
  flagged : list nat;
}.

Definition flagged_rows (fl : list bool) : list nat :=
  filter (fun i => nth i fl false) (seq 0 (List.length fl)).

Definition report_of (fl : list bool) : outlier_report :=
  {| flags := fl;
     count := List.length (filter (fun b => b) fl);
     flagged := flagged_rows fl |}.

Definition detect_outliers : M outlier_report :=
  df <- get ;;
  fl <- call (outliers df) ;;
  ret (report_of fl).

(** What the second [print] of the cell shows:
    [df[outliers][key_columns]]. *)
Definition outlier_rows (df : DataFrame) (fl : list bool)
  : result DataFrame :=
  Pd.getitems (Pd.mask_rows df fl) key_columns.

(** [for col in key_columns: df[col] = df[col].fillna(df[col].median())] *)
Definition impute_column (col : string) : M unit :=
  df <- get ;;
  s <- call (Pd.getitem df col) ;;
  m <- call (Pd.median col s) ;;
  put (Pd.setitem df col (Pd.fillna s m)).

Definition impute : M unit := for_each key_columns impute_column.

(** [df = df.drop(columns=['Comments'], errors='ignore')] *)
Definition drop_comments : M unit :=
  df <- get ;;
  put (Pd.drop df ["Comments"]).

(** [df[key_columns] = df[key_columns].clip(lower=0)] *)
Definition clip_negatives : M unit :=
  df <- get ;;
  sub <- call (Pd.getitems df key_columns) ;;
  clipped <- call (Pd.clip sub) ;;
  put (Pd.setitems df clipped).

(** The Normalizer of the specification: the two statements above. *)
Definition normalize : M unit :=
  drop_comments ;;; clip_negatives.

(** [df.to_csv('data/sierra_leone_clean.csv', index=False)] *)
Definition export : M Pd.csv :=
  df <- get ;;
  ret (Pd.to_csv df).

(** Cell 5, top to bottom. *)
Definition clean : M (outlier_report * Pd.csv) :=
  o <- detect_outliers ;;
  impute ;;;
  normalize ;;;
  file <- export ;;
  ret (o, file).

(** Cells 3 and 5 in sequence on the loaded frame. *)
Definition pipeline : M (list report_row * outlier_report * Pd.csv) :=
  rep <- profile ;;
  oc <- clean ;;
  ret (rep, fst oc, snd oc).

(** *** Cell 9: cleaning impact *)

(** [cleaning_impact =
     df.groupby('Cleaning')[['ModA', 'ModB']].mean().reset_index()]
    (the bar plot drawn from it is not modelled). *)
Definition cleaning_impact : M DataFrame :=
  df <- get ;;
  call (Pd.groupby_mean df "Cleaning" ["ModA"; "ModB"]).

End Notebook.

(** ** Vocabulary of the statements *)

Module Frame.

Local Open Scope float_scope.

(** Dtypes the numeric calls accept. *)
Definition numeric (c : column) : bool :=
  match c with
  | FloatCol _ | IntCol _ => true
  | ObjCol _ => false
  end.

(** Every key column is a numeric column of the frame: what the input
    file has to provide. *)
Definition keys_numeric (df : DataFrame) : bool :=
  forallb
    (fun k =>
       match Pd.lookup df k with
       | Some c => numeric c
       | None => false
       end)
    Notebook.key_columns.

Definition present_numeric (df : DataFrame) (k : string) : Prop :=
  exists c, Pd.lookup df k = Some c /\ numeric c = true.

(** Dtypes [median], [fillna] and [clip] accept: the numeric ones and the
    column of dtype object without any row. *)
Definition fillable (c : column) : bool :=
  match c with
  | ObjCol (_ :: _) => false
  | _ => true
  end.

Definition present_fillable (df : DataFrame) (k : string) : Prop :=
  exists c, Pd.lookup df k = Some c /\ fillable c = true.

(** Column labels are unique, as [read_csv] makes them. *)
Fixpoint distinct (ls : list string) : bool :=
  match ls with
  | [] => true
  | l :: ls' => negb (existsb (String.eqb l) ls') && distinct ls'
  end.

Definition unique_labels (df : DataFrame) : bool := distinct (Pd.labels df).

(** Every column has [n] cells. *)
Definition all_len (n : nat) (df : DataFrame) : Prop :=
  Forall (fun lc => Pd.col_length (snd lc) = n) df.


(** The non-missing values of a column, as numbers. *)
Definition values (c : column) : list float :=
  match c with
  | FloatCol xs => filter F64.notna xs
  | IntCol zs => map F64.of_Z zs
  | ObjCol _ => []
  end.

(** The standardized score in the words of the specification: the value
    minus the column mean, over the column standard deviation, both taken
    over the non-missing values of the column; the mean is their sum over
    their number and the deviation is the root of the mean squared
    deviation from that mean.  (The sums are binary64 sums, taken as numpy
    takes them for the dtype of the column.) *)
Definition column_sum (c : column) : float :=
  match c with
  | IntCol _ => F64.sum_cast (values c)
  | _ => F64.sum (values c)
  end.

Definition column_mean (c : column) : float :=
  column_sum c / F64.of_nat (List.length (values c)).

Definition column_deviation (c : column) : float :=
  sqrt (F64.sum
          (map (fun y => (y - column_mean c) * (y - column_mean c)) (values c))
        / F64.of_nat (List.length (values c))).

Definition standardized (c : column) (x : float) : float :=
  (x - column_mean c) / column_deviation c.



(** Row [i] of a column holds no value. *)
Definition missing_at (c : column) (i : nat) : bool :=
  match c with
  | FloatCol xs =>
      match nth_error xs i with
      | Some x => is_nan x
      | None => false
      end
  | IntCol _ => false
  | ObjCol ss =>
      match nth_error ss i with
      | Some None => true
      | _ => false
      end
  end.

(** The number of rows of a column that hold no value. *)
Definition missing_cells (c : column) : nat :=
  List.length (filter (missing_at c) (seq 0 (Pd.col_length c))).

(** A report that omits no column of the frame. *)
Definition covers (df : DataFrame) (rows : list Notebook.report_row) : Prop :=
  forall l c, In (l, c) df -> exists r, In r rows /\ Notebook.label r = l.

(** The middle of an ascending list: its middle element, or the mean of
    its two middle elements. *)
Definition middle (s : list float) : float :=
  match List.length s with
  | O => nan
  | S _ as n =>
      if Nat.even n
      then (nth (n / 2 - 1) s nan + nth (n / 2) s nan) / 2
      else nth (n / 2) s nan / 1
  end.

(** [m] is a median of [ys]: the middle of [ys] put in ascending order. *)
Definition median_of (ys : list float) (m : float) : Prop :=
  exists s, Permutation s ys /\ Sorted F64.le s /\ m = middle s.

(** A key column that needs no cleaning: no missing and no negative
    cell. *)
Definition clean_column (c : column) : bool :=
  match c with
  | FloatCol xs => forallb (fun x => negb (is_nan x) && negb (x <? 0)) xs
  | IntCol zs => forallb (fun z => (0 <=? z)%Z) zs
  | ObjCol _ => false
  end.

Definition keys_clean (df : DataFrame) : bool :=
  forallb
    (fun k =>
       match Pd.lookup df k with
       | Some c => clean_column c
       | None => false
       end)
    Notebook.key_columns.

(** Membership in a list of labels. *)
Definition mem (l : string) (ls : list string) : bool :=
  existsb (String.eqb l) ls.

(** The column under a label (an empty text column when there is
    none). *)
Definition pick (df : DataFrame) (l : string) : column :=
  match Pd.lookup df l with
  | Some c => c
  | None => ObjCol []
  end.

(** The three library calls of cell 5 on one numeric column, in closed
    form: the scores, the column filled with its own median, the column
    clipped. *)
Definition scores (c : column) : list float :=
  match c with
  | FloatCol xs => Scipy.zscore_floats xs
  | IntCol zs => map (Scipy.score_int zs) (map F64.of_Z zs)
  | ObjCol _ => []
  end.

Definition imputed_column (c : column) : column :=
  match c with
  | FloatCol xs =>
      FloatCol (map (Pd.fillna_float (F64.median (filter F64.notna xs))) xs)
  | IntCol zs => IntCol zs
  | ObjCol ss => ObjCol ss
  end.

Definition clipped_column (c : column) : column :=
  match c with
  | FloatCol xs => FloatCol (map Pd.clip_float xs)
  | IntCol zs => IntCol (map Pd.clip_int zs)
  | ObjCol ss => ObjCol ss
  end.

(** What cell 5 leaves in a key column: filled, then clipped. *)
Definition cleaned_column (c : column) : column :=
  clipped_column (imputed_column c).

(** A cell [x] and what clipping at zero makes of it: zero when [x] is
    negative, [x] itself when it is not or when it is missing; so never a
    negative value. *)
Definition clipped_float (x y : float) : Prop :=
  ((x <? 0) = true -> y = 0) /\
  ((0 <=? x) = true -> y = x) /\
  (is_nan x = true -> y = x) /\
  (is_nan y = false -> (0 <=? y) = true).

Definition clipped_int (z w : Z) : Prop :=
  ((z < 0)%Z -> w = 0%Z) /\ ((0 <= z)%Z -> w = z) /\ (0 <= w)%Z.

(** Column-wise: the dtype is kept and the cells correspond row by
    row.  Text is never the result of clipping; the column of dtype object
    without any row is, of itself. *)
Definition clipped (c c' : column) : Prop :=
  match c, c' with
  | FloatCol xs, FloatCol ys => Forall2 clipped_float xs ys
  | IntCol zs, IntCol ws => Forall2 clipped_int zs ws
  | ObjCol [], ObjCol [] => True
  | _, _ => False
  end.

(** A float column [xs] and what imputation with [m] followed by clipping
    makes of its missing cells. *)
Definition filled_with (m : float) (xs ys : list float) : Prop :=
  Forall2 (fun x y => is_nan x = true -> y = Pd.clip_float m) xs ys.

(** A cell [x] and what [fillna] with [m] makes of it. *)
Definition filled_float (m x y : float) : Prop :=
  (is_nan x = false -> y = x) /\ (is_nan x = true -> y = m).

(** Column-wise: the dtype is kept; a float column is filled with the
    median of its own non-missing values, an integer column is kept, and
    so is the column of dtype object without any row. *)
Definition imputed (c c' : column) : Prop :=
  match c, c' with
  | FloatCol xs, FloatCol ys =>
      exists m,
        median_of (filter F64.notna xs) m /\ Forall2 (filled_float m) xs ys
  | IntCol zs, IntCol ws => ws = zs
  | ObjCol [], ObjCol [] => True
  | _, _ => False
  end.

(** A key column whose median is defined, or which has no value at all:
    cell 5 leaves nothing in it for a second run to fill differently. *)
Definition settled (c : column) : bool :=
  match c with
  | FloatCol xs =>
      negb (is_nan (F64.median (filter F64.notna xs))) || forallb is_nan xs
  | IntCol _ => true
  | ObjCol _ => false
  end.

Definition keys_settled (df : DataFrame) : bool :=
  forallb
    (fun k =>
       match Pd.lookup df k with
       | Some c => settled c
       | None => false
       end)
    Notebook.key_columns.

(** A field of the file that is empty or a number at or above zero. *)
Definition nonneg_field (f : Pd.field) : Prop :=
  match f with
  | Pd.Empty => True
  | Pd.Float x => (0 <=? x) = true
  | Pd.Int z => (0 <= z)%Z
  | Pd.Text _ => False
  end.

End Frame.

(** ** Sample frames *)

Module Samples.

Local Open Scope float_scope.

(** Three rows; [GHI] has no value at all, [WS] has a negative median and
    one missing cell, [DHI] is an integer column. *)
Definition sparse : DataFrame :=
  [("Timestamp", ObjCol [Some "2021-10-30 00:01"; Some "2021-10-30 00:02";
                         Some "2021-10-30 00:03"]);
   ("GHI", FloatCol [nan; nan; nan]);
   ("DNI", FloatCol [1; 2; 3]);
   ("DHI", IntCol [1; -2; 3]%Z);
   ("ModA", FloatCol [1; 2; 3]);
   ("ModB", FloatCol [1; 2; 3]);
   ("WS", FloatCol [-5; nan; -3]);
   ("WSgust", FloatCol [0.5; nan; 1.5]);
   ("Tamb", FloatCol [-1.5; nan; 21]);
   ("Cleaning", IntCol [0; 1; 0]%Z);
   ("Comments", FloatCol [nan; nan; nan])].

(** Twelve rows, the last one far from the others in [ModA]; no
    [Comments] column. *)
Definition spike : DataFrame :=
  [("Timestamp", ObjCol (repeat (Some "2021-10-30") 12));
   ("GHI", FloatCol [nan; 2; 3; 4; 5; 6; 7; 8; 9; 10; 11; 12]);
   ("DNI", FloatCol (repeat 1 12));
   ("DHI", FloatCol (repeat 1 12));
   ("ModA", FloatCol [50; 51; 49; 50; 52; 48; 50; 51; 49; 50; 50; 500]);
   ("ModB", FloatCol (repeat 2 12));
   ("WS", FloatCol [-2.5; 1; 1; 1; 1; 1; 1; 1; 1; 1; 1; 1]);
   ("WSgust", FloatCol (repeat 3 12))].


(** Four rows for cell 9: one cleaned row, then three that are not. *)
Definition soiled : DataFrame :=
  [("ModA", FloatCol [5; 0.1; 0.2; 0.3]);
   ("ModB", IntCol [4; 1; 2; 3]%Z);
   ("Cleaning", IntCol [1; 0; 0; 0]%Z)].


(** A frame that is already clean. *)
Definition tidy : DataFrame :=
  [("Timestamp", ObjCol [Some "2021-10-30 00:01"; None]);
   ("GHI", FloatCol [0; 2.5]);
   ("DNI", FloatCol [1; 2]);
   ("DHI", IntCol [1; 0]%Z);
   ("ModA", FloatCol [1; 2]);
   ("ModB", FloatCol [1; 2]);
   ("WS", FloatCol [0.5; 3]);
   ("WSgust", FloatCol [0.5; 1.5]);
   ("Tamb", FloatCol [-1.5; nan])].

(** The run of the two cells on a sample (a run that raised shows as the
    empty frame). *)
Definition run (df : DataFrame)
  : list Notebook.report_row * Notebook.outlier_report * Pd.csv * DataFrame :=
  match Notebook.pipeline df with
  | Ok r => r
  | Err _ => ([], Notebook.report_of [], Pd.to_csv [], [])
  end.

Definition spike_flags : list bool :=
  Eval vm_compute in
    match Notebook.outliers spike with
    | Ok fl => fl
    | Err _ => []
    end.

(** [sparse] after the Normalizer alone. *)
Definition sparse_normalized : DataFrame :=
  Eval vm_compute in
    match Notebook.normalize sparse with
    | Ok (_, df') => df'
    | Err _ => []
    end.

(** [sparse] after the imputation loop alone. *)
Definition sparse_imputed : DataFrame :=
  Eval vm_compute in
    match Notebook.impute sparse with
    | Ok (_, df') => df'
    | Err _ => []
    end.

(** [tidy] without its wind speed column. *)
Definition windless : DataFrame := Eval vm_compute in Pd.drop tidy ["WS"].

Definition sparse_out := Eval vm_compute in fst (run sparse).
Definition sparse_cleaned : DataFrame := Eval vm_compute in snd (run sparse).
Definition spike_out := Eval vm_compute in fst (run spike).
Definition spike_cleaned : DataFrame := Eval vm_compute in snd (run spike).

(** The table of cell 9 on [sparse] as cleaned. *)
Definition sparse_impact : DataFrame :=
  Eval vm_compute in
    match Notebook.cleaning_impact sparse_cleaned with
    | Ok (ci, _) => ci
    | Err _ => []
    end.

End Samples.

(** * Properties *)

(** ** Binary64 facts, from the specification of the primitive operations *)

Section Binary64.

Local Open Scope float_scope.

Lemma SFeqb_refl_finite s m e :
  SFeqb (S754_finite s m e) (S754_finite s m e) = true.
Proof.
  unfold SFeqb, SFcompare.
  rewrite Z.compare_refl, Pos.compare_cont_refl. now destruct s.
Qed.

(** How a float stands to zero: missing, negative, or neither. *)
Inductive sign_view (x : float) : Type :=
| IsNaN :
    is_nan x = true -> (x <? 0) = false -> (0 <=? x) = false ->
    sign_view x
| IsNonneg :
    is_nan x = false -> (x <? 0) = false -> (0 <=? x) = true ->
    sign_view x
| IsNeg :
    is_nan x = false -> (x <? 0) = true -> (0 <=? x) = false ->
    sign_view x.

Lemma sign_cases x : sign_view x.
Proof.
  assert (N : is_nan x = negb (SFeqb (Prim2SF x) (Prim2SF x)))
    by (unfold is_nan; now rewrite eqb_spec).
  assert (L : (x <? 0) = SFltb (Prim2SF x) (S754_zero false))
    by (now rewrite ltb_spec).
  assert (G : (0 <=? x) = SFleb (S754_zero false) (Prim2SF x))
    by (now rewrite leb_spec).
  destruct (Prim2SF x) as [s | s | | s m e].
  - apply IsNonneg; [rewrite N | rewrite L | rewrite G]; now destruct s.
  - destruct s; [apply IsNeg | apply IsNonneg];
      (rewrite N || rewrite L || rewrite G); reflexivity.
  - apply IsNaN; [rewrite N | rewrite L | rewrite G]; reflexivity.
  - rewrite SFeqb_refl_finite in N.
    destruct s; [apply IsNeg | apply IsNonneg];
      (assumption || rewrite L || rewrite G); reflexivity.
Qed.

(** There is one NaN. *)
Lemma is_nan_eq x : is_nan x = true -> x = nan.
Proof.
  unfold is_nan. rewrite eqb_spec. intros H.
  apply Prim2SF_inj. change (Prim2SF nan) with S754_nan.
  destruct (Prim2SF x) as [s | s | | s m e]; try reflexivity.
  - now destruct s.
  - now destruct s.
  - now rewrite SFeqb_refl_finite in H.
Qed.



(** [clip(lower=0)], cell by cell. *)
Lemma clip_float_negative x : (x <? 0) = true -> Pd.clip_float x = 0.
Proof.
  intros H. unfold Pd.clip_float.
  destruct (sign_cases x) as [? ? ?|? ? ?|N L G]; try congruence.
  now rewrite N, G.
Qed.

Lemma clip_float_nonneg x : (0 <=? x) = true -> Pd.clip_float x = x.
Proof.
  intros H. unfold Pd.clip_float. rewrite H. now rewrite orb_true_r.
Qed.

Lemma clip_float_nan x : is_nan x = true -> Pd.clip_float x = x.
Proof. intros H. unfold Pd.clip_float. now rewrite H. Qed.

Lemma clip_float_range x :
  is_nan (Pd.clip_float x) = false -> (0 <=? Pd.clip_float x) = true.
Proof.
  unfold Pd.clip_float.
  destruct (is_nan x) eqn:N; cbn [orb]; [congruence |].
  destruct (0 <=? x) eqn:G; [now rewrite G | reflexivity].
Qed.

Lemma clip_float_is_nan x : is_nan (Pd.clip_float x) = is_nan x.
Proof.
  unfold Pd.clip_float.
  destruct (sign_cases x) as [N L G|N L G|N L G]; rewrite N, G; cbn [orb];
    (assumption || reflexivity).
Qed.

Lemma clip_float_idem x : Pd.clip_float (Pd.clip_float x) = Pd.clip_float x.
Proof.
  unfold Pd.clip_float.
  destruct (is_nan x || (0 <=? x)) eqn:E; [now rewrite E | reflexivity].
Qed.

Lemma clip_float_clean x :
  is_nan x = false -> (x <? 0) = false -> Pd.clip_float x = x.
Proof.
  intros N L. destruct (sign_cases x) as [? ? ?|? ? G|? ? ?]; try congruence.
  now apply clip_float_nonneg.
Qed.

Lemma clip_int_range z : (0 <= Pd.clip_int z)%Z.
Proof. unfold Pd.clip_int. destruct (Z.leb_spec 0 z); lia. Qed.

Lemma clip_int_negative z : (z < 0)%Z -> Pd.clip_int z = 0%Z.
Proof. intros H. unfold Pd.clip_int. destruct (Z.leb_spec 0 z); lia. Qed.

Lemma clip_int_nonneg z : (0 <= z)%Z -> Pd.clip_int z = z.
Proof. intros H. unfold Pd.clip_int. destruct (Z.leb_spec 0 z); lia. Qed.

(** [fillna], cell by cell. *)
Lemma fillna_float_missing v x :
  is_nan x = true -> Pd.fillna_float v x = v.
Proof. intros H. unfold Pd.fillna_float. now rewrite H. Qed.

Lemma fillna_float_present v x :
  is_nan x = false -> Pd.fillna_float v x = x.
Proof. intros H. unfold Pd.fillna_float. now rewrite H. Qed.

Lemma fillna_float_nan x : Pd.fillna_float nan x = x.
Proof.
  unfold Pd.fillna_float. destruct (is_nan x) eqn:N; [| reflexivity].
  symmetry. now apply is_nan_eq.
Qed.

Lemma fillna_float_is_nan v x :
  is_nan v = false -> is_nan (Pd.fillna_float v x) = false.
Proof.
  intros H. unfold Pd.fillna_float. now destruct (is_nan x) eqn:N.
Qed.



(** *** The median is taken in a sorted rearrangement *)

Lemma SFcompare_antisym a b :
  SFcompare b a = option_map CompOpp (SFcompare a b).
Proof.
  destruct a as [s1 | s1 | | s1 m1 e1], b as [s2 | s2 | | s2 m2 e2];
    cbn [SFcompare option_map]; try reflexivity;
    try (now destruct s1, s2); try (now destruct s1); try (now destruct s2).
  rewrite (Z.compare_antisym e1 e2).
  change (Pos.compare_cont Eq m2 m1)
    with (Pos.compare_cont (CompOpp Eq) m2 m1).
  rewrite <- (Pos.compare_cont_antisym m1 m2 Eq).
  destruct s1, s2; cbn [CompOpp]; try reflexivity;
    destruct (e1 ?= e2)%Z; cbn [CompOpp]; try reflexivity;
    now destruct (Pos.compare_cont Eq m1 m2).
Qed.

Lemma not_nan_Prim2SF x : is_nan x = false -> Prim2SF x <> S754_nan.
Proof.
  unfold is_nan. rewrite eqb_spec. intros H E. rewrite E in H. discriminate.
Qed.

(** Non-missing values are totally ordered. *)
Lemma leb_total x y :
  is_nan x = false -> is_nan y = false ->
  (x <=? y) = false -> (y <=? x) = true.
Proof.
  intros Nx Ny. apply not_nan_Prim2SF in Nx, Ny.
  rewrite !leb_spec. unfold SFleb.
  rewrite (SFcompare_antisym (Prim2SF x) (Prim2SF y)).
  destruct (SFcompare (Prim2SF x) (Prim2SF y)) as [[ | | ] |] eqn:C; cbn;
    try congruence.
  exfalso.
  destruct (Prim2SF x) as [ | [] | | ], (Prim2SF y) as [ | [] | | ];
    cbn in C; try discriminate; congruence.
Qed.

Lemma insert_perm x l : Permutation (F64.insert x l) (x :: l).
Proof.
  induction l as [| y l IH]; cbn [F64.insert]; [reflexivity |].
  destruct (x <=? y); [reflexivity |].
  rewrite IH. apply perm_swap.
Qed.

Lemma sort_perm l : Permutation (F64.sort l) l.
Proof.
  induction l as [| x l IH]; cbn [F64.sort]; [reflexivity |].
  rewrite insert_perm. now constructor.
Qed.

Lemma insert_sorted x l :
  is_nan x = false -> Forall (fun y => is_nan y = false) l ->
  Sorted F64.le l -> Sorted F64.le (F64.insert x l).
Proof.
  intros Nx Nl S. induction S as [| y l S IH H]; cbn [F64.insert].
  - repeat constructor.
  - inversion Nl as [| ? ? Ny Nl']; subst.
    destruct (x <=? y) eqn:E.
    + constructor; [now constructor | now constructor].
    + constructor; [now apply IH |].
      pose proof (leb_total _ _ Nx Ny E) as G.
      destruct l as [| z l]; cbn [F64.insert]; [now constructor |].
      destruct (x <=? z); constructor; [exact G |].
      now inversion H.
Qed.

Lemma sort_sorted l :
  Forall (fun y => is_nan y = false) l -> Sorted F64.le (F64.sort l).
Proof.
  induction 1 as [| x l Nx Nl IH]; cbn [F64.sort]; [constructor |].
  apply insert_sorted; [exact Nx | | exact IH].
  apply Forall_forall. intros y Hy. rewrite Forall_forall in Nl. apply Nl.
  now apply (Permutation_in _ (sort_perm l)).
Qed.

Lemma dropna_no_nan xs :
  Forall (fun y => is_nan y = false) (filter F64.notna xs).
Proof.
  apply Forall_forall. intros y Hy. apply filter_In in Hy.
  destruct Hy as (_ & Hy). unfold F64.notna in Hy.
  now apply negb_true_iff in Hy.
Qed.

(** The median that [fillna] receives: the middle of the non-missing
    values of the column put in ascending order. *)
Lemma median_of_column xs :
  exists s,
    Permutation s (filter F64.notna xs) /\ Sorted F64.le s /\
    F64.median (filter F64.notna xs) =
    match List.length s with
    | O => nan
    | S _ as n =>
        if Nat.even n
        then (nth (n / 2 - 1) s nan + nth (n / 2) s nan) / 2
        else nth (n / 2) s nan / 1
    end.
Proof.
  exists (F64.sort (filter F64.notna xs)).
  split; [apply sort_perm |]. split; [apply sort_sorted, dropna_no_nan |].
  unfold F64.median. now destruct (List.length _).
Qed.

(** So [F64.median] returns a median of the non-missing values. *)
Lemma median_of_dropna xs :
  Frame.median_of (filter F64.notna xs) (F64.median (filter F64.notna xs)).
Proof.
  destruct (median_of_column xs) as (s & P & S & E).
  exists s. split; [exact P |]. split; [exact S | exact E].
Qed.

Lemma median_empty : F64.median [] = nan.
Proof. reflexivity. Qed.

Example median_of_three : F64.median [3; 1; 2] = 2.
Proof. reflexivity. Qed.

Example median_of_four : F64.median [4; 1; 3; 2] = 2.5.
Proof. reflexivity. Qed.

Example median_negative : F64.median [-5; -3] = -4.
Proof. reflexivity. Qed.

(** Two infinities of opposite sign have no median. *)
Example median_undefined : F64.median [infinity; neg_infinity] = nan.
Proof. reflexivity. Qed.

Example clip_examples :
  map Pd.clip_float [-2.5; 0; 3.5; nan] = [0; 0; 3.5; nan].
Proof. reflexivity. Qed.

(** *** The sum does not depend on the fuel *)

Lemma halves_shorter n :
  (128 < n -> 0 < n / 2 - (n / 2) mod 8 < n)%nat.
Proof.
  intros H.
  pose proof (Nat.mod_upper_bound (n / 2)%nat 8 ltac:(discriminate)) as M.
  assert (64 <= n / 2)%nat by (apply Nat.div_le_lower_bound; lia).
  assert (n / 2 < n)%nat by (apply Nat.div_lt; lia).
  lia.
Qed.

(** Any fuel from the length of the array on gives the same sum: each
    half of an array of more than 128 values is shorter than the array. *)
Lemma pairwise_sum_fuel f :
  forall f' xs,
    List.length xs <= f -> List.length xs <= f' ->
    F64.pairwise_sum f xs = F64.pairwise_sum f' xs.
Proof.
  induction f as [| f IH]; intros f' xs H H'.
  - destruct xs; [| cbn in H; lia]. now destruct f'.
  - destruct f' as [| f'].
    + destruct xs; [| cbn in H'; lia]. reflexivity.
    + cbn [F64.pairwise_sum].
      destruct (Nat.ltb (List.length xs) 8) eqn:E8; [reflexivity |].
      destruct (Nat.leb (List.length xs) 128) eqn:E128; [reflexivity |].
      apply Nat.leb_gt in E128.
      pose proof (halves_shorter _ E128) as (L1 & L2).
      set (n2 := (List.length xs / 2 - (List.length xs / 2) mod 8)%nat) in *.
      assert (A : List.length (firstn n2 xs) = n2)
        by (apply firstn_length_le; lia).
      assert (B : List.length (skipn n2 xs) = (List.length xs - n2)%nat)
        by apply length_skipn.
      rewrite (IH f' (firstn n2 xs)) by lia.
      rewrite (IH f' (skipn n2 xs)) by lia.
      reflexivity.
Qed.

Lemma sum_fuel f xs :
  List.length xs <= f -> F64.pairwise_sum f xs = F64.sum xs.
Proof. intros H. unfold F64.sum. now apply pairwise_sum_fuel. Qed.

Lemma bufsize_pos : (0 < F64.bufsize)%nat.
Proof. unfold F64.bufsize. lia. Qed.

Lemma add_buffers_fuel f :
  forall f' acc xs,
    List.length xs <= f -> List.length xs <= f' ->
    F64.add_buffers f acc xs = F64.add_buffers f' acc xs.
Proof.
  induction f as [| f IH]; intros f' acc xs H H'.
  - destruct xs; [| cbn in H; lia]. now destruct f'.
  - destruct f' as [| f'].
    + destruct xs; [reflexivity | cbn in H'; lia].
    + destruct xs as [| x xs]; [reflexivity |]. cbn [F64.add_buffers].
      pose proof bufsize_pos as P.
      apply IH; rewrite length_skipn; cbn [List.length] in *; lia.
Qed.

(** An array that fits the buffer is summed in one go. *)
Lemma sum_cast_short xs :
  List.length xs <= F64.bufsize -> F64.sum_cast xs = F64.sum xs.
Proof.
  intros H. unfold F64.sum_cast.
  rewrite (firstn_all2 xs H), (skipn_all2 xs H).
  now destruct (List.length xs).
Qed.

(** Fewer than eight values are added one after the other; sixteen are
    added in eight running sums that are then added in pairs. *)
Example sum_of_three : F64.sum [0.1; 0.2; 0.3] = 0.1 + 0.2 + 0.3.
Proof. reflexivity. Qed.

Example sum_of_sixteen :
  F64.sum [1; 2; 3; 4; 5; 6; 7; 8; 9; 10; 11; 12; 13; 14; 15; 16]
  = (((1 + 9) + (2 + 10)) + ((3 + 11) + (4 + 12)))
    + (((5 + 13) + (6 + 14)) + ((7 + 15) + (8 + 16))).
Proof. reflexivity. Qed.

End Binary64.

(** ** The error monad and the frame operations *)

Section Results.

Context {A B : Type}.

Lemma Ok_inj (a a' : A) : Ok a = Ok a' -> a = a'.
Proof. now intros [= ->]. Qed.

Lemma rmap_total (f : A -> result B) (g : A -> B) l :
  (forall a, In a l -> f a = Ok (g a)) -> rmap f l = Ok (map g l).
Proof.
  induction l as [| a l IH]; intros H; cbn [rmap map]; [reflexivity |].
  rewrite (H a (or_introl eq_refl)). cbn [rbind].
  rewrite IH by (intros; apply H; now right). reflexivity.
Qed.

Lemma rmap_in (f : A -> result B) l bs :
  rmap f l = Ok bs -> forall a, In a l -> exists b, f a = Ok b.
Proof.
  revert bs. induction l as [| a0 l IH]; intros bs H a Ha; [easy |].
  cbn [rmap] in H.
  destruct (f a0) as [b0 |] eqn:E0; cbn [rbind] in H; [| discriminate].
  destruct (rmap f l) as [bs' |] eqn:El; cbn [rbind] in H; [| discriminate].
  destruct Ha as [<- | Ha]; [now exists b0 | now apply (IH bs')].
Qed.

Lemma rmap_err (f : A -> result B) l e :
  rmap f l = Err e -> exists a, In a l /\ f a = Err e.
Proof.
  induction l as [| a0 l IH]; cbn [rmap]; [discriminate |].
  destruct (f a0) as [b0 |] eqn:E0; cbn [rbind].
  - destruct (rmap f l) as [bs |]; cbn [rbind]; [discriminate |].
    intros [= <-]. destruct (IH eq_refl) as (a & Ha & Hf).
    exists a. split; [now right | exact Hf].
  - intros [= <-]. exists a0. split; [now left | exact E0].
Qed.

End Results.

Section Frames.

Import Pd Frame.

Lemma eqb_sym_false (a b : string) :
  String.eqb a b = false -> String.eqb b a = false.
Proof. rewrite !String.eqb_neq. congruence. Qed.

Lemma mem_In l ls : mem l ls = true <-> In l ls.
Proof.
  unfold mem. rewrite existsb_exists. split.
  - intros (x & Hx & E). apply String.eqb_eq in E. now subst.
  - intros H. exists l. split; [assumption | apply String.eqb_refl].
Qed.

Lemma mem_not_In l ls : mem l ls = false <-> ~ In l ls.
Proof.
  rewrite <- mem_In. destruct (mem l ls); split; congruence.
Qed.

(** *** [lookup] *)

Lemma lookup_In df l c : lookup df l = Some c -> In (l, c) df.
Proof.
  induction df as [| [l0 c0] df IH]; cbn [lookup]; [discriminate |].
  destruct (String.eqb l0 l) eqn:E.
  - apply String.eqb_eq in E. intros [= <-]. left. now subst.
  - intros H. right. now apply IH.
Qed.

Lemma lookup_labels df l c : lookup df l = Some c -> In l (labels df).
Proof.
  intros H. apply lookup_In in H. unfold labels.
  change l with (fst (l, c)). now apply in_map.
Qed.

Lemma lookup_none df l : ~ In l (labels df) -> lookup df l = None.
Proof.
  intros H. destruct (lookup df l) eqn:E; [| reflexivity].
  now apply lookup_labels in E.
Qed.

Lemma lookup_unique df l c :
  NoDup (labels df) -> In (l, c) df -> lookup df l = Some c.
Proof.
  induction df as [| [l0 c0] df IH]; intros N H; [easy |].
  cbn [labels map fst] in N. inversion N as [| ? ? Hn N']; subst.
  cbn [lookup]. destruct H as [[= -> ->] | H].
  - now rewrite String.eqb_refl.
  - destruct (String.eqb l0 l) eqn:E; [| now apply IH].
    apply String.eqb_eq in E. subst l0. exfalso. apply Hn.
    change l with (fst (l, c)). now apply in_map.
Qed.

Lemma pick_lookup df l c : lookup df l = Some c -> pick df l = c.
Proof. intros H. unfold pick. now rewrite H. Qed.

(** *** [df[label] = c] *)

Lemma lookup_replace df k v l :
  lookup
    (map (fun lc => if String.eqb (fst lc) k then (fst lc, v) else lc) df)
    l
  = if String.eqb k l
    then match lookup df k with Some _ => Some v | None => None end
    else lookup df l.
Proof.
  induction df as [| [l0 c0] df IH]; cbn [map lookup fst].
  - now destruct (String.eqb k l).
  - destruct (String.eqb l0 k) eqn:E0; cbn [lookup fst].
    + apply String.eqb_eq in E0. subst l0.
      destruct (String.eqb k l) eqn:E; [reflexivity | exact IH].
    + destruct (String.eqb l0 l) eqn:E1.
      * apply String.eqb_eq in E1. subst l0.
        apply eqb_sym_false in E0. now rewrite E0.
      * apply IH.
Qed.

Lemma lookup_app df df2 l :
  lookup (df ++ df2) l =
  match lookup df l with Some c => Some c | None => lookup df2 l end.
Proof.
  induction df as [| [l0 c0] df IH]; cbn [app lookup]; [reflexivity |].
  now destruct (String.eqb l0 l).
Qed.

Lemma lookup_setitem df k v l :
  lookup (setitem df k v) l =
  if String.eqb k l then Some v else lookup df l.
Proof.
  unfold setitem. destruct (lookup df k) as [c |] eqn:E.
  - rewrite lookup_replace, E. reflexivity.
  - rewrite lookup_app. cbn [lookup].
    destruct (String.eqb k l) eqn:Ekl.
    + apply String.eqb_eq in Ekl. subst l. now rewrite E.
    + now destruct (lookup df l).
Qed.

Lemma labels_setitem df k v c :
  lookup df k = Some c -> labels (setitem df k v) = labels df.
Proof.
  intros H. unfold setitem. rewrite H. unfold labels. rewrite map_map.
  apply map_ext. intros [l0 c0]. cbn [fst].
  now destruct (String.eqb l0 k).
Qed.

Lemma all_len_setitem n df k v c :
  lookup df k = Some c -> col_length v = n ->
  all_len n df -> all_len n (setitem df k v).
Proof.
  intros H Hv Hn. unfold setitem. rewrite H. unfold all_len in *.
  rewrite Forall_forall in *. intros lc' Hin.
  apply in_map_iff in Hin. destruct Hin as (lc & <- & Hin).
  destruct (String.eqb (fst lc) k); [exact Hv | now apply Hn].
Qed.

Lemma replace_absent df k v :
  ~ In k (labels df) ->
  map (fun lc => if String.eqb (fst lc) k then (fst lc, v) else lc) df = df.
Proof.
  intros H. rewrite <- (map_id df) at 2. apply map_ext_in.
  intros [l0 c0] Hin. cbn [fst].
  destruct (String.eqb l0 k) eqn:E; [| reflexivity].
  apply String.eqb_eq in E. subst l0. exfalso. apply H.
  change k with (fst (k, c0)). now apply in_map.
Qed.

(** Writing back the column that is already there changes nothing. *)
Lemma setitem_same df k c :
  NoDup (labels df) -> lookup df k = Some c -> setitem df k c = df.
Proof.
  intros N H. unfold setitem. rewrite H. clear - N H.
  induction df as [| [l0 c0] df IH]; [reflexivity |].
  cbn [labels map fst] in N. inversion N as [| ? ? Hn N']; subst.
  cbn [lookup] in H. cbn [map fst].
  destruct (String.eqb l0 k) eqn:E.
  - apply String.eqb_eq in E. subst l0. injection H as ->.
    now rewrite replace_absent.
  - now rewrite IH.
Qed.

(** *** [df.drop(columns=ls, errors='ignore')] *)

Lemma lookup_drop df ls l :
  lookup (drop df ls) l = if mem l ls then None else lookup df l.
Proof.
  unfold drop, mem.
  induction df as [| [l0 c0] df IH]; cbn [filter lookup fst].
  - now destruct (existsb (String.eqb l) ls).
  - destruct (String.eqb l0 l) eqn:E.
    + apply String.eqb_eq in E. subst l0.
      destruct (existsb (String.eqb l) ls) eqn:M; cbn [negb].
      * rewrite IH. reflexivity.
      * cbn [lookup]. now rewrite String.eqb_refl.
    + destruct (existsb (String.eqb l0) ls); cbn [negb]; [apply IH |].
      cbn [lookup]. rewrite E. apply IH.
Qed.

Lemma labels_drop df ls :
  labels (drop df ls) = filter (fun l => negb (mem l ls)) (labels df).
Proof.
  unfold drop, labels, mem.
  induction df as [| [l0 c0] df IH]; cbn [filter map fst]; [reflexivity |].
  destruct (existsb (String.eqb l0) ls); cbn [negb map fst]; now rewrite IH.
Qed.

Lemma drop_absent df ls :
  (forall l, In l ls -> ~ In l (labels df)) -> drop df ls = df.
Proof.
  intros H. unfold drop. apply forallb_filter_id. apply forallb_forall.
  intros [l0 c0] Hin. cbn [fst]. apply negb_true_iff.
  apply mem_not_In. intros Hl. apply (H l0 Hl).
  change l0 with (fst (l0, c0)). now apply in_map.
Qed.

Lemma all_len_drop n df ls : all_len n df -> all_len n (drop df ls).
Proof.
  unfold all_len, drop. rewrite !Forall_forall. intros H lc Hin.
  apply filter_In in Hin. now apply H.
Qed.

(** *** Row counts *)

Lemma all_len_lookup n df l c :
  all_len n df -> lookup df l = Some c -> col_length c = n.
Proof.
  intros H E. apply lookup_In in E. unfold all_len in H.
  rewrite Forall_forall in H. exact (H _ E).
Qed.

Lemma all_len_len n df l c :
  all_len n df -> lookup df l = Some c -> len df = n.
Proof.
  intros H E. destruct df as [| [l0 c0] df]; [discriminate |].
  cbn [len]. inversion H; subst. reflexivity.
Qed.

Lemma aligned_all_len df : aligned df = true -> all_len (len df) df.
Proof.
  unfold aligned, all_len. rewrite forallb_forall, Forall_forall.
  intros H lc Hin. apply Nat.eqb_eq. now apply H.
Qed.

End Frames.

(** ** The statements of cell 5, one by one *)

Section Statements.

Import Pd Frame Notebook.

Local Open Scope float_scope.

Lemma keys_numeric_spec df :
  keys_numeric df = true <->
  forall k, In k key_columns -> present_numeric df k.
Proof.
  unfold keys_numeric, present_numeric. rewrite forallb_forall.
  split; intros H k Hk; specialize (H k Hk).
  - destruct (lookup df k) as [c |]; [now exists c | discriminate].
  - destruct H as (c & -> & Hc). exact Hc.
Qed.

Lemma key_columns_NoDup : NoDup key_columns.
Proof.
  unfold key_columns.
  repeat (constructor; [cbn [In]; intuition discriminate |]).
  constructor.
Qed.

Lemma Comments_not_key : mem "Comments" key_columns = false.
Proof. reflexivity. Qed.

Lemma key_not_Comments k : In k key_columns -> mem k ["Comments"] = false.
Proof.
  intros H. apply mem_not_In. intros [<- | []].
  apply mem_In in H. now rewrite Comments_not_key in H.
Qed.

(** *** The library calls on a numeric column *)

Lemma zscore_numeric l c : numeric c = true -> Scipy.zscore l c = Ok (scores c).
Proof. now destruct c. Qed.

Lemma zscore_inv l c zs : Scipy.zscore l c = Ok zs -> numeric c = true.
Proof. now destruct c. Qed.

Lemma numeric_fillable c : numeric c = true -> fillable c = true.
Proof. now destruct c. Qed.

Lemma present_numeric_fillable df k :
  present_numeric df k -> present_fillable df k.
Proof.
  intros (c & E & Hc). exists c. split; [exact E | now apply numeric_fillable].
Qed.

Lemma fillable_imputed c : fillable (imputed_column c) = fillable c.
Proof. now destruct c. Qed.

Lemma fillable_clipped c : fillable (clipped_column c) = fillable c.
Proof. now destruct c. Qed.

Lemma getitems_present df ks :
  (forall k, In k ks -> exists c, lookup df k = Some c) ->
  getitems df ks = Ok (map (fun k => (k, pick df k)) ks).
Proof.
  intros H. unfold getitems. apply rmap_total. intros k Hk.
  destruct (H k Hk) as (c & E).
  unfold getitem, pick. now rewrite E.
Qed.

Lemma median_fillna l c :
  fillable c = true ->
  exists m, median l c = Ok m /\ fillna c m = imputed_column c.
Proof.
  destruct c as [xs | zs | [| s ss]]; intros H; try discriminate.
  - now exists (F64.median (filter F64.notna xs)).
  - now exists (F64.median (map F64.of_Z zs)).
  - now exists (F64.median []).
Qed.

Lemma clip_col_numeric l c :
  fillable c = true -> clip_col l c = Ok (clipped_column c).
Proof. now destruct c as [xs | zs | [| s ss]]. Qed.

Lemma numeric_imputed c : numeric (imputed_column c) = numeric c.
Proof. now destruct c. Qed.

Lemma col_length_imputed c : col_length (imputed_column c) = col_length c.
Proof. destruct c; cbn; now rewrite ?length_map. Qed.

Lemma col_length_clipped c : col_length (clipped_column c) = col_length c.
Proof. destruct c; cbn; now rewrite ?length_map. Qed.

(** *** [df[key_columns]] *)

Lemma getitems_total df ks :
  (forall k, In k ks -> present_numeric df k) ->
  getitems df ks = Ok (map (fun k => (k, pick df k)) ks).
Proof.
  intros H. unfold getitems. apply rmap_total. intros k Hk.
  destruct (H k Hk) as (c & E & _).
  unfold getitem, pick. now rewrite E.
Qed.

Lemma getitems_inv df ks sub :
  getitems df ks = Ok sub ->
  sub = map (fun k => (k, pick df k)) ks /\
  forall k, In k ks -> exists c, lookup df k = Some c.
Proof.
  intros H.
  assert (P : forall k, In k ks -> exists c, lookup df k = Some c).
  { intros k Hk. destruct (rmap_in _ _ _ H k Hk) as (b & Hb).
    unfold getitem in Hb. destruct (lookup df k) as [c |]; [| discriminate].
    now exists c. }
  split; [| exact P].
  unfold getitems in H. rewrite (rmap_total _ (fun k => (k, pick df k))) in H.
  - now injection H.
  - intros k Hk. destruct (P k Hk) as (c & E).
    unfold getitem, pick. now rewrite E.
Qed.

(** *** The outlier report *)

Lemma z_scores_total df :
  keys_numeric df = true ->
  z_scores df = Ok (map (fun k => (k, scores (pick df k))) key_columns).
Proof.
  intros H. rewrite keys_numeric_spec in H.
  unfold z_scores. rewrite (getitems_total _ _ H). cbn [rbind].
  rewrite (rmap_total _ (fun lc => (fst lc, scores (snd lc)))).
  - now rewrite map_map.
  - intros lc Hin. apply in_map_iff in Hin. destruct Hin as (k & <- & Hk).
    cbn [fst snd]. destruct (H k Hk) as (c & E & Hc).
    rewrite (pick_lookup _ _ _ E). now rewrite (zscore_numeric _ _ Hc).
Qed.

Lemma z_scores_inv df zs : z_scores df = Ok zs -> keys_numeric df = true.
Proof.
  unfold z_scores. intros H.
  destruct (getitems df key_columns) as [sub |] eqn:G; [| discriminate].
  cbn [rbind] in H. apply getitems_inv in G. destruct G as (-> & P).
  apply keys_numeric_spec. intros k Hk. destruct (P k Hk) as (c & E).
  exists c. split; [exact E |].
  destruct (rmap_in _ _ _ H (k, pick df k)) as (b & Hb).
  { apply in_map_iff. now exists k. }
  cbn [fst snd] in Hb. rewrite (pick_lookup _ _ _ E) in Hb.
  destruct (Scipy.zscore k c) as [z |] eqn:Z; [| discriminate].
  now apply zscore_inv in Z.
Qed.

Lemma outliers_total df :
  keys_numeric df = true ->
  outliers df =
  Ok (any_axis1 (len df)
        (map (fun k => map exceeds (scores (pick df k))) key_columns)).
Proof.
  intros H. unfold outliers. rewrite (z_scores_total _ H). cbn [rbind].
  now rewrite map_map.
Qed.

Lemma outliers_inv df fl : outliers df = Ok fl -> keys_numeric df = true.
Proof.
  unfold outliers. intros H.
  destruct (z_scores df) as [zs |] eqn:Z; [| discriminate].
  now apply z_scores_inv in Z.
Qed.

Lemma detect_outliers_run df :
  detect_outliers df =
  match outliers df with
  | Ok fl => Ok (report_of fl, df)
  | Err e => Err e
  end.
Proof.
  unfold detect_outliers, bind, get, call, ret. now destruct (outliers df).
Qed.

(** *** The imputation loop *)

Lemma impute_column_run df k c :
  lookup df k = Some c -> fillable c = true ->
  impute_column k df = Ok (tt, setitem df k (imputed_column c)).
Proof.
  intros E Hc. destruct (median_fillna k c Hc) as (m & Hm & Hf).
  unfold impute_column, bind, get, call, put, getitem.
  rewrite E, Hm. now rewrite Hf.
Qed.

Lemma impute_loop ks :
  NoDup ks ->
  forall df,
    (forall k, In k ks -> present_fillable df k) ->
    exists df',
      for_each ks impute_column df = Ok (tt, df') /\
      labels df' = labels df /\
      (forall l,
          lookup df' l =
          if mem l ks then option_map imputed_column (lookup df l)
          else lookup df l) /\
      (forall n, all_len n df -> all_len n df').
Proof.
  induction 1 as [| k ks Hk N IH]; intros df H.
  - exists df. repeat split; auto.
  - destruct (H k (or_introl eq_refl)) as (c & E & Hc).
    pose (df1 := setitem df k (imputed_column c)).
    assert (L1 : forall l,
               lookup df1 l =
               if String.eqb k l then Some (imputed_column c)
               else lookup df l) by (intros; apply lookup_setitem).
    destruct (IH df1) as (df' & R & Lb & Lk & Ln).
    { intros k' Hk'. destruct (H k' (or_intror Hk')) as (c' & E' & Hc').
      exists c'. split; [| exact Hc']. rewrite L1.
      destruct (String.eqb k k') eqn:Ekk; [| exact E'].
      apply String.eqb_eq in Ekk. now subst k'. }
    exists df'. split; [| split; [| split]].
    + cbn [for_each]. unfold bind at 1.
      rewrite (impute_column_run _ _ _ E Hc). exact R.
    + rewrite Lb. apply (labels_setitem _ _ _ _ E).
    + intros l. rewrite Lk, L1. unfold mem. cbn [existsb].
      fold (mem l ks).
      destruct (String.eqb k l) eqn:Ekl.
      * apply String.eqb_eq in Ekl. subst l. rewrite String.eqb_refl.
        cbn [orb]. apply mem_not_In in Hk. rewrite Hk, E. reflexivity.
      * apply eqb_sym_false in Ekl. rewrite Ekl. reflexivity.
    + intros n Hn. apply Ln.
      apply (all_len_setitem _ _ _ _ _ E); [| exact Hn].
      rewrite col_length_imputed. apply (all_len_lookup _ _ _ _ Hn E).
Qed.

(** *** [df[key_columns] = df[key_columns].clip(lower=0)] *)

Lemma label_lookup df k : In k (labels df) -> exists c, lookup df k = Some c.
Proof.
  intros H. destruct (lookup df k) as [c |] eqn:E; [now exists c |].
  exfalso. revert H E. unfold labels.
  induction df as [| [l0 c0] df IH]; cbn [map fst In lookup]; [easy |].
  intros [-> | H]; [now rewrite String.eqb_refl |].
  destruct (String.eqb l0 k); [discriminate | now apply IH].
Qed.

Lemma setitems_keys (g : string -> column) ks :
  forall d,
    (forall k, In k ks -> In k (labels d)) ->
    let d' := setitems d (map (fun k => (k, g k)) ks) in
    labels d' = labels d /\
    (forall l, lookup d' l = if mem l ks then Some (g l) else lookup d l) /\
    (forall n,
        all_len n d -> (forall k, In k ks -> col_length (g k) = n) ->
        all_len n d') /\
    (NoDup (labels d) -> (forall k, In k ks -> lookup d k = Some (g k)) ->
     d' = d).
Proof.
  unfold setitems.
  induction ks as [| k ks IH]; intros d H; cbn [map fold_left fst snd].
  - repeat split; auto.
  - destruct (label_lookup d k (H k (or_introl eq_refl))) as (c & E).
    pose proof (labels_setitem d k (g k) c E) as Lb.
    destruct (IH (setitem d k (g k))) as (IHl & IHk & IHn & IHs).
    { intros k' Hk'. rewrite Lb. apply H. now right. }
    split; [| split; [| split]].
    + now rewrite IHl.
    + intros l. rewrite IHk, lookup_setitem. unfold mem. cbn [existsb].
      fold (mem l ks). destruct (mem l ks); [now rewrite orb_true_r |].
      rewrite orb_false_r. destruct (String.eqb k l) eqn:Ekl.
      * apply String.eqb_eq in Ekl. subst l. now rewrite String.eqb_refl.
      * apply eqb_sym_false in Ekl. now rewrite Ekl.
    + intros n Hn Hg. apply IHn.
      * apply (all_len_setitem _ _ _ _ _ E); [| exact Hn].
        apply Hg. now left.
      * intros k' Hk'. apply Hg. now right.
    + intros N Hs.
      assert (S : setitem d k (g k) = d)
        by (apply setitem_same; [exact N | apply Hs; now left]).
      rewrite S in IHs |- *. apply IHs; [exact N |].
      intros k' Hk'. apply Hs. now right.
Qed.

Lemma clip_total df ks :
  (forall k, In k ks -> present_fillable df k) ->
  clip (map (fun k => (k, pick df k)) ks) =
  Ok (map (fun k => (k, clipped_column (pick df k))) ks).
Proof.
  intros H. unfold clip.
  rewrite (rmap_total _ (fun lc => (fst lc, clipped_column (snd lc)))).
  - now rewrite map_map.
  - intros lc Hin. apply in_map_iff in Hin. destruct Hin as (k & <- & Hk).
    cbn [fst snd]. destruct (H k Hk) as (c & E & Hc).
    rewrite (pick_lookup _ _ _ E). now rewrite (clip_col_numeric _ _ Hc).
Qed.

Lemma clip_negatives_spec df :
  (forall k, In k key_columns -> present_fillable df k) ->
  exists df',
    clip_negatives df = Ok (tt, df') /\
    labels df' = labels df /\
    (forall l,
        lookup df' l =
        if mem l key_columns then option_map clipped_column (lookup df l)
        else lookup df l) /\
    (forall n, all_len n df -> all_len n df') /\
    (NoDup (labels df) ->
     (forall k c, In k key_columns -> lookup df k = Some c ->
                  clipped_column c = c) ->
     df' = df).
Proof.
  intros H.
  assert (P : forall k, In k key_columns -> In k (labels df)).
  { intros k Hk. destruct (H k Hk) as (c & E & _).
    now apply lookup_labels in E. }
  destruct (setitems_keys (fun k => clipped_column (pick df k))
              key_columns df P) as (Lb & Lk & Ln & Ls).
  eexists. split; [| split; [| split; [| split]]].
  - unfold clip_negatives, bind, get, call, put.
    rewrite (getitems_present df key_columns), (clip_total _ _ H).
    + reflexivity.
    + intros k Hk. destruct (H k Hk) as (c & E & _). now exists c.
  - exact Lb.
  - intros l. rewrite Lk. destruct (mem l key_columns) eqn:M; [| reflexivity].
    apply mem_In in M. destruct (H l M) as (c & E & _).
    now rewrite (pick_lookup _ _ _ E), E.
  - intros n Hn. apply Ln; [exact Hn |]. intros k Hk.
    destruct (H k Hk) as (c & E & _). rewrite (pick_lookup _ _ _ E).
    rewrite col_length_clipped. apply (all_len_lookup _ _ _ _ Hn E).
  - intros N Hc. apply Ls; [exact N |]. intros k Hk.
    destruct (H k Hk) as (c & E & _). rewrite (pick_lookup _ _ _ E), E.
    f_equal. symmetry. now apply (Hc k).
Qed.

(** *** The Normalizer *)

Lemma present_fillable_drop df k :
  In k key_columns -> present_fillable df k ->
  present_fillable (drop df ["Comments"]) k.
Proof.
  intros Hk (c & E & Hc). exists c. split; [| exact Hc].
  now rewrite lookup_drop, (key_not_Comments k Hk).
Qed.

Lemma normalize_spec df :
  (forall k, In k key_columns -> present_fillable df k) ->
  exists df',
    normalize df = Ok (tt, df') /\
    labels df' = filter (fun l => negb (mem l ["Comments"])) (labels df) /\
    (forall l,
        lookup df' l =
        if mem l ["Comments"] then None
        else if mem l key_columns
             then option_map clipped_column (lookup df l)
             else lookup df l) /\
    (forall n, all_len n df -> all_len n df') /\
    (NoDup (labels df) -> ~ In "Comments" (labels df) ->
     (forall k c, In k key_columns -> lookup df k = Some c ->
                  clipped_column c = c) ->
     df' = df).
Proof.
  intros H.
  destruct (clip_negatives_spec (drop df ["Comments"]))
    as (df' & R & Lb & Lk & Ln & Ls).
  { intros k Hk. now apply present_fillable_drop, H. }
  exists df'. split; [| split; [| split; [| split]]].
  - unfold normalize, drop_comments, bind, get, put. exact R.
  - now rewrite Lb, labels_drop.
  - intros l. rewrite Lk, lookup_drop.
    destruct (mem l ["Comments"]) eqn:M; [| reflexivity].
    destruct (mem l key_columns) eqn:K; [| reflexivity].
    apply mem_In in K. now rewrite (key_not_Comments l K) in M.
  - intros n Hn. now apply Ln, all_len_drop.
  - intros N HC Hc.
    assert (D : drop df ["Comments"] = df).
    { apply drop_absent. intros l [<- | []]. exact HC. }
    rewrite D in Ls. now apply Ls.
Qed.

(** *** The whole of cells 3 and 5 *)

Lemma pipeline_inv df out df' :
  pipeline df = Ok (out, df') -> keys_numeric df = true.
Proof.
  unfold pipeline, profile, clean. cbv beta delta [bind get ret].
  cbv beta iota. rewrite detect_outliers_run.
  destruct (outliers df) as [fl |] eqn:O; [| discriminate].
  intros _. now apply outliers_inv in O.
Qed.

Lemma pipeline_spec df :
  keys_numeric df = true ->
  exists fl df',
    outliers df = Ok fl /\
    pipeline df =
    Ok ((missing_report df, report_of fl, to_csv df'), df') /\
    labels df' = filter (fun l => negb (mem l ["Comments"])) (labels df) /\
    (forall l,
        lookup df' l =
        if mem l ["Comments"] then None
        else if mem l key_columns
             then option_map cleaned_column (lookup df l)
             else lookup df l) /\
    (forall n, all_len n df -> all_len n df').
Proof.
  intros H. pose proof (outliers_total _ H) as O.
  rewrite keys_numeric_spec in H.
  destruct (impute_loop key_columns key_columns_NoDup df)
    as (df1 & R1 & Lb1 & Lk1 & Ln1).
  { intros k Hk. now apply present_numeric_fillable, H. }
  destruct (normalize_spec df1) as (df2 & R2 & Lb2 & Lk2 & Ln2 & _).
  { intros k Hk. destruct (H k Hk) as (c & E & Hc).
    exists (imputed_column c). split.
    - apply mem_In in Hk. now rewrite Lk1, Hk, E.
    - rewrite fillable_imputed. now apply numeric_fillable. }
  eexists. exists df2. split; [exact O |].
  split; [| split; [| split]].
  - unfold pipeline, profile, clean, export. cbv beta delta [bind get ret].
    cbv beta iota. rewrite detect_outliers_run, O.
    unfold impute. rewrite R1, R2. reflexivity.
  - now rewrite Lb2, Lb1.
  - intros l. rewrite Lk2, Lk1.
    destruct (mem l ["Comments"]); [reflexivity |].
    destruct (mem l key_columns); [| reflexivity].
    now destruct (lookup df l).
  - intros n Hn. now apply Ln2, Ln1.
Qed.

End Statements.

(** ** Profiler *)

Section Profiler.

Import Pd Frame Notebook.

Local Open Scope float_scope.

Lemma combine_map {A B C} (f : A -> B) (g : A -> C) l :
  combine (map f l) (map g l) = map (fun a => (f a, g a)) l.
Proof. induction l as [| a l IH]; cbn; now rewrite ?IH. Qed.

(** The rows of [missing_report], column by column. *)
Lemma missing_report_rows df :
  missing_report df =
  map (fun lc =>
         {| label := fst lc;
            Missing_Values := count_na (snd lc);
            Percentage :=
              F64.of_nat (count_na (snd lc)) / F64.of_nat (len df) * 100 |})
    df.
Proof.
  unfold missing_report, missing_values, missing_percentage.
  now rewrite combine_map, map_map.
Qed.

(** What is printed is a part of the report: the rows above 5 percent. *)
Lemma printed_missing_report_rows df r :
  In r (printed_missing_report df) <->
  In r (missing_report df) /\ (5 <? Percentage r) = true.
Proof. unfold printed_missing_report. apply filter_In. Qed.

Lemma filter_map_S (p : nat -> bool) l :
  filter p (map S l) = map S (filter (fun i => p (S i)) l).
Proof.
  induction l as [| i l IH]; [reflexivity |]. cbn [map filter].
  destruct (p (S i)); cbn [map]; now rewrite IH.
Qed.

(** Counting the marks of [isna] is counting the rows that hold no
    value. *)
Lemma count_marks {A} (p : A -> bool) (l : list A) :
  List.length (filter (fun b => b) (map p l)) =
  List.length
    (filter (fun i => match nth_error l i with
                      | Some a => p a
                      | None => false
                      end)
       (seq 0 (List.length l))).
Proof.
  induction l as [| a l IH]; [reflexivity |].
  cbn [map List.length seq]. rewrite <- seq_shift.
  cbn [filter nth_error]. rewrite filter_map_S. cbn [nth_error].
  destruct (p a); cbn [List.length]; now rewrite length_map, IH.
Qed.

Lemma count_na_missing_cells c : count_na c = missing_cells c.
Proof.
  unfold count_na, missing_cells.
  destruct c as [xs | zs | ss]; cbn [isna col_length].
  - apply count_marks.
  - rewrite count_marks. apply (f_equal (@List.length nat)), filter_ext.
    intros i.
    cbn [missing_at]. now destruct (nth_error zs i).
  - rewrite count_marks. apply (f_equal (@List.length nat)), filter_ext.
    intros i.
    cbn [missing_at]. now destruct (nth_error ss i) as [[t |] |].
Qed.

(** The row of [missing_report] that a column gets. *)
Lemma missing_report_row df l c :
  In (l, c) df ->
  In {| label := l;
        Missing_Values := missing_cells c;
        Percentage :=
          F64.of_nat (missing_cells c) / F64.of_nat (len df) * 100 |}
    (missing_report df).
Proof.
  intros H. rewrite missing_report_rows.
  rewrite <- (count_na_missing_cells c).
  apply (in_map
           (fun lc =>
              {| label := fst lc;
                 Missing_Values := count_na (snd lc);
                 Percentage :=
                   F64.of_nat (count_na (snd lc)) / F64.of_nat (len df)
                   * 100 |})) in H.
  exact H.
Qed.

Lemma missing_report_covers df : covers df (missing_report df).
Proof.
  intros l c H. eexists. split; [apply (missing_report_row df l c H) |].
  reflexivity.
Qed.

(** C6 (as amended).  The profiling cell returns and leaves [df] as it
    was.  The table [missing_report] it builds has one row per column of
    the frame, in column order and under the column's label; the row of a
    column holds the number of its rows that hold no value and that number
    divided by the number of rows of the frame, times 100.  What the cell
    shows of that table is the rows whose percentage is above 5 only: the
    row of a column is printed exactly when its percentage is above 5. *)
Theorem C6_missing_report_printed_above_5_percent df l c :
  In (l, c) df ->
  profile df = Ok (missing_report df, df) /\
  map label (missing_report df) = labels df /\
  covers df (missing_report df) /\
  In {| label := l;
        Missing_Values := missing_cells c;
        Percentage :=
          F64.of_nat (missing_cells c) / F64.of_nat (len df) * 100 |}
    (missing_report df) /\
  (In {| label := l;
         Missing_Values := missing_cells c;
         Percentage :=
           F64.of_nat (missing_cells c) / F64.of_nat (len df) * 100 |}
     (printed_missing_report df) <->
   (5 <? F64.of_nat (missing_cells c) / F64.of_nat (len df) * 100) = true).
Proof.
  intros H. split; [reflexivity |]. split.
  { rewrite missing_report_rows. now rewrite map_map. }
  split; [apply missing_report_covers |].
  pose proof (missing_report_row df l c H) as R. split; [exact R |].
  rewrite printed_missing_report_rows. cbn [Percentage]. tauto.
Qed.

End Profiler.

(** ** Outlier Detector *)

Section OutlierDetector.

Import Pd Frame Notebook.

Local Open Scope float_scope.
Local Open Scope nb_scope.



Lemma flagged_rows_lt fl i : In i (flagged_rows fl) -> i < List.length fl.
Proof.
  unfold flagged_rows. intros H. apply filter_In in H.
  destruct H as (H & _). apply in_seq in H. lia.
Qed.

Lemma outliers_length df fl : outliers df = Ok fl -> List.length fl = len df.
Proof.
  intros H. pose proof (outliers_inv _ _ H) as K.
  rewrite (outliers_total _ K) in H. apply Ok_inj in H. subst fl.
  unfold any_axis1. now rewrite length_map, length_seq.
Qed.








(** C9. The detector only reads [df]: when it returns, the frame is the
    one it was given, and a second run on it returns the same report, so
    the same flagged rows. *)
Theorem C9_detector_leaves_frame_unchanged df o df' :
  detect_outliers df = Ok (o, df') ->
  df' = df /\
  (o1 <- detect_outliers ;; o2 <- detect_outliers ;; ret (o1, o2)) df =
  Ok ((o, o), df) /\
  flagged o = flagged_rows (flags o).
Proof.
  rewrite detect_outliers_run. intros H.
  destruct (outliers df) as [fl |] eqn:O; [| discriminate].
  injection H as <- <-. split; [reflexivity |]. split; [| reflexivity].
  cbv beta delta [bind ret]. rewrite detect_outliers_run, O. cbv beta iota.
  now rewrite detect_outliers_run, O.
Qed.

End OutlierDetector.

(** ** Normalizer *)

Section Normalizer.

Import Pd Frame Notebook.

Local Open Scope float_scope.
Local Open Scope nb_scope.

Lemma Forall2_map_r {A B} (R : A -> B -> Prop) (f : A -> B) l :
  (forall a, R a (f a)) -> Forall2 R l (map f l).
Proof. intros H. induction l; cbn [map]; constructor; auto. Qed.

Lemma clip_float_clipped x : clipped_float x (clip_float x).
Proof.
  repeat split.
  - apply clip_float_negative.
  - apply clip_float_nonneg.
  - apply clip_float_nan.
  - apply clip_float_range.
Qed.

Lemma clip_int_clipped z : clipped_int z (clip_int z).
Proof.
  repeat split.
  - apply clip_int_negative.
  - apply clip_int_nonneg.
  - apply clip_int_range.
Qed.

Lemma clipped_column_clipped c :
  fillable c = true -> clipped c (clipped_column c).
Proof.
  destruct c as [xs | zs | [| s ss]]; intros H; try discriminate; cbn.
  - apply Forall2_map_r, clip_float_clipped.
  - apply Forall2_map_r, clip_int_clipped.
  - exact I.
Qed.

Lemma clipped_column_clean c :
  clean_column c = true -> clipped_column c = c.
Proof.
  destruct c as [xs | zs | ss]; cbn [clean_column clipped_column];
    intros H; try discriminate; rewrite forallb_forall in H; f_equal;
    rewrite <- map_id; apply map_ext_in; intros a Ha;
    specialize (H a Ha).
  - apply andb_true_iff in H. destruct H as (N & L).
    apply negb_true_iff in N, L. now apply clip_float_clean.
  - apply clip_int_nonneg. now apply Z.leb_le.
Qed.

Lemma distinct_NoDup ls : distinct ls = true -> NoDup ls.
Proof.
  induction ls as [| l ls IH]; cbn [distinct]; intros H; constructor;
    apply andb_true_iff in H; destruct H as (H1 & H2).
  - apply negb_true_iff in H1. now apply mem_not_In.
  - now apply IH.
Qed.

Lemma clip_negatives_inv d u d' :
  clip_negatives d = Ok (u, d') ->
  forall k, In k key_columns -> present_fillable d k.
Proof.
  unfold clip_negatives. cbv beta delta [bind get call put]. cbv beta iota.
  destruct (getitems d key_columns) as [sub |] eqn:G; [| discriminate].
  destruct (clip sub) as [cl |] eqn:C; [| discriminate]. intros _ k Hk.
  apply getitems_inv in G. destruct G as (-> & P).
  destruct (P k Hk) as (c & E). exists c. split; [exact E |].
  destruct (rmap_in _ _ _ C (k, pick d k)) as (b & Hb).
  { apply in_map_iff. now exists k. }
  cbn [fst snd] in Hb. rewrite (pick_lookup _ _ _ E) in Hb.
  destruct c as [xs | zs | [| s ss]];
    [reflexivity | reflexivity | reflexivity | discriminate].
Qed.

Lemma normalize_inv df u df' :
  normalize df = Ok (u, df') ->
  forall k, In k key_columns -> present_fillable df k.
Proof.
  unfold normalize, drop_comments. cbv beta delta [bind get put].
  cbv beta iota. intros H k Hk.
  destruct (clip_negatives_inv _ _ _ H k Hk) as (c & E & Hc).
  exists c. split; [| exact Hc].
  now rewrite lookup_drop, (key_not_Comments k Hk) in E.
Qed.

(** C4. When the Normalizer returns, every key column keeps its dtype and
    its cells correspond row by row to the cells it had: a value below
    zero has become zero, a value at or above zero is unchanged, a
    missing cell is still missing; so every value of the column is at or
    above zero. *)
Theorem C4_normalizer_clips_negatives_to_zero df u df' k :
  normalize df = Ok (u, df') ->
  In k key_columns ->
  exists c c',
    lookup df k = Some c /\ lookup df' k = Some c' /\ clipped c c'.
Proof.
  intros H Hk. pose proof (normalize_inv _ _ _ H) as K.
  destruct (normalize_spec df K) as (df2 & R & _ & Lk & _).
  rewrite R in H. apply Ok_inj in H. injection H as _ <-.
  destruct (K k Hk) as (c & E & Hc).
  exists c, (clipped_column c). split; [exact E |]. split.
  - rewrite Lk, (key_not_Comments k Hk).
    apply mem_In in Hk. now rewrite Hk, E.
  - now apply clipped_column_clipped.
Qed.

(** The only errors the Normalizer raises name a key column. *)
Lemma normalize_errors df e :
  normalize df = Err e ->
  exists k, In k key_columns /\ (e = KeyError k \/ e = TypeError k).
Proof.
  unfold normalize, drop_comments, clip_negatives.
  cbv beta delta [bind get call put]. cbv beta iota.
  set (d := drop df ["Comments"]).
  destruct (getitems d key_columns) as [sub |] eqn:G.
  - apply getitems_inv in G. destruct G as (-> & _).
    destruct (clip _) as [cl |] eqn:C; [discriminate |]. intros [= <-].
    apply rmap_err in C. destruct C as (lc & Hin & Hc).
    apply in_map_iff in Hin. destruct Hin as (k & <- & Hk).
    exists k. split; [exact Hk |]. right. cbn [fst snd] in Hc.
    destruct (pick d k) as [xs | zs | [| s ss]]; cbn in Hc; congruence.
  - intros [= <-]. apply rmap_err in G. destruct G as (k & Hk & Hg).
    exists k. split; [exact Hk |]. left. unfold getitem in Hg.
    destruct (lookup d k); cbn in Hg; congruence.
Qed.

(** C7. The statement that drops [Comments] never raises, whether the
    column is there or not, and an error of the Normalizer is always about
    a key column.  On a frame that has its key columns (numeric), the
    Normalizer returns; the frame it leaves has no [Comments] column; its
    columns are those of the input without [Comments], in the same order,
    so all of them when [Comments] was absent; and every column apart from
    the key columns (which are clipped) is as it was. *)
Theorem C7_normalizer_removes_comments df :
  drop_comments df = Ok (tt, drop df ["Comments"]) /\
  (forall e, normalize df = Err e ->
             exists k, In k key_columns /\
                       (e = KeyError k \/ e = TypeError k)) /\
  (keys_numeric df = true ->
   exists df',
     normalize df = Ok (tt, df') /\
     ~ In "Comments" (labels df') /\
     lookup df' "Comments" = None /\
     labels df' =
       filter (fun l => negb (String.eqb l "Comments")) (labels df) /\
     (~ In "Comments" (labels df) -> labels df' = labels df) /\
     (forall l, l <> "Comments" -> ~ In l key_columns ->
                lookup df' l = lookup df l)).
Proof.
  split; [reflexivity |]. split; [apply normalize_errors |].
  intros K. rewrite keys_numeric_spec in K.
  destruct (normalize_spec df) as (df' & R & Lb & Lk & _).
  { intros k Hk. now apply present_numeric_fillable, K. }
  assert (F : labels df' =
              filter (fun l => negb (String.eqb l "Comments")) (labels df)).
  { rewrite Lb. apply filter_ext. intros l. unfold mem. cbn [existsb].
    now rewrite orb_false_r. }
  exists df'. split; [exact R |]. split; [| split; [| split; [| split]]].
  - rewrite F. intros H. apply filter_In in H. destruct H as (_ & H).
    now rewrite String.eqb_refl in H.
  - now rewrite Lk.
  - exact F.
  - intros H. rewrite F. apply forallb_filter_id. apply forallb_forall.
    intros l Hl. apply negb_true_iff, String.eqb_neq. congruence.
  - intros l Hl Hk. rewrite Lk.
    assert (M : mem l ["Comments"] = false).
    { apply mem_not_In. intros [E | []]. now symmetry in E. }
    apply mem_not_In in Hk. now rewrite M, Hk.
Qed.

(** C8. On a frame with unique labels, without [Comments], whose key
    columns are numeric with no missing and no negative cell, the
    Normalizer returns the frame it was given; so does a second run. *)
Theorem C8_normalizer_idempotent_on_clean_frames df :
  unique_labels df = true ->
  ~ In "Comments" (labels df) ->
  keys_clean df = true ->
  normalize df = Ok (tt, df) /\
  (normalize ;;; normalize) df = Ok (tt, df).
Proof.
  intros U HC KC. apply distinct_NoDup in U.
  unfold keys_clean in KC. rewrite forallb_forall in KC.
  assert (K : forall k, In k key_columns -> present_numeric df k).
  { intros k Hk. specialize (KC k Hk).
    destruct (lookup df k) as [c |] eqn:E; [| discriminate].
    exists c. split; [exact E |]. now destruct c. }
  destruct (normalize_spec df) as (df' & R & _ & _ & _ & Same).
  { intros k Hk. now apply present_numeric_fillable, K. }
  assert (E : df' = df).
  { apply Same; [exact U | exact HC |]. intros k c Hk Ec.
    specialize (KC k Hk). rewrite Ec in KC.
    now apply clipped_column_clean. }
  subst df'. split; [exact R |].
  unfold bind. now rewrite R.
Qed.

Lemma clipped_column_idem c :
  clipped_column (clipped_column c) = clipped_column c.
Proof.
  destruct c as [xs | zs | ss]; cbn [clipped_column]; [| | reflexivity];
    rewrite map_map; f_equal; apply map_ext; intros a.
  - apply clip_float_idem.
  - apply clip_int_nonneg, clip_int_range.
Qed.

(** X12. On any frame with unique labels, whatever its cells: what the
    Normalizer returns, it returns again when run on it. *)
Lemma normalize_twice df u df' :
  unique_labels df = true ->
  normalize df = Ok (u, df') ->
  normalize df' = Ok (tt, df').
Proof.
  intros U H. apply distinct_NoDup in U.
  pose proof (normalize_inv _ _ _ H) as K.
  destruct (normalize_spec df K) as (d & R & Lb & Lk & _).
  rewrite R in H. apply Ok_inj in H. injection H as _ <-.
  assert (K' : forall k, In k key_columns -> present_fillable d k).
  { intros k Hk. destruct (K k Hk) as (c & E & Hc).
    exists (clipped_column c). split; [| now rewrite fillable_clipped].
    rewrite Lk, (key_not_Comments k Hk).
    apply mem_In in Hk. now rewrite Hk, E. }
  destruct (normalize_spec d K') as (d' & R' & _ & _ & _ & Same).
  assert (E : d' = d); [| now rewrite <- E at 2].
  apply Same.
  - unfold labels in *. rewrite Lb. now apply NoDup_filter.
  - rewrite Lb. intros Hin. apply filter_In in Hin. now destruct Hin.
  - intros k c Hk E. rewrite Lk, (key_not_Comments k Hk) in E.
    apply mem_In in Hk. rewrite Hk in E.
    destruct (lookup df k) as [c0 |]; [| discriminate].
    injection E as <-. apply clipped_column_idem.
Qed.

End Normalizer.

(** ** Imputer and the whole pipeline *)

Section Pipeline.

Import Pd Frame Notebook.

Local Open Scope float_scope.

Lemma count_na_float ys :
  (forall y, In y ys -> is_nan y = false) -> count_na (FloatCol ys) = 0%nat.
Proof.
  unfold count_na. cbn [isna]. intros H.
  induction ys as [| y ys IH]; [reflexivity |]. cbn [map filter].
  rewrite (H y (or_introl eq_refl)). apply IH. intros; apply H. now right.
Qed.

Lemma count_na_int zs : count_na (IntCol zs) = 0%nat.
Proof. unfold count_na. cbn [isna]. now induction zs. Qed.

Lemma filter_all_missing xs :
  forallb is_nan xs = true -> filter F64.notna xs = [].
Proof.
  induction xs as [| x xs IH]; cbn [forallb filter]; [reflexivity |].
  intros H. apply andb_true_iff in H. destruct H as (N & H).
  unfold F64.notna at 1. rewrite N. now apply IH.
Qed.

Lemma cleaned_all_missing xs :
  forallb is_nan xs = true -> cleaned_column (FloatCol xs) = FloatCol xs.
Proof.
  intros H. unfold cleaned_column. cbn [imputed_column clipped_column].
  rewrite (filter_all_missing _ H), median_empty, map_map. f_equal.
  rewrite <- map_id. apply map_ext_in. intros x Hx.
  rewrite forallb_forall in H. rewrite fillna_float_nan.
  now apply clip_float_nan, H.
Qed.

Lemma all_len_aligned n df : all_len n df -> len df = n -> aligned df = true.
Proof.
  unfold all_len, aligned. rewrite Forall_forall, forallb_forall.
  intros H E lc Hin. apply Nat.eqb_eq. rewrite E. now apply H.
Qed.

(** The pipeline returns on every frame whose key columns are all there
    and numeric, whatever their cells. *)
Lemma pipeline_returns df :
  keys_numeric df = true -> exists out df', pipeline df = Ok (out, df').
Proof.
  intros K. destruct (pipeline_spec df K) as (fl & df' & _ & R & _).
  eexists. exists df'. exact R.
Qed.

(** The frame the two cells leave, column by column. *)
Lemma pipeline_columns df out df' :
  pipeline df = Ok (out, df') ->
  keys_numeric df = true /\
  snd out = to_csv df' /\
  (exists fl, outliers df = Ok fl /\ snd (fst out) = report_of fl) /\
  labels df' = filter (fun l => negb (mem l ["Comments"])) (labels df) /\
  (forall l,
      lookup df' l =
      if mem l ["Comments"] then None
      else if mem l key_columns
           then option_map cleaned_column (lookup df l)
           else lookup df l) /\
  (forall n, all_len n df -> all_len n df').
Proof.
  intros H. pose proof (pipeline_inv _ _ _ H) as K.
  destruct (pipeline_spec df K) as (fl & df2 & O & R & Lb & Lk & Ln).
  rewrite R in H. apply Ok_inj in H. injection H as <- <-.
  repeat split; try assumption. now exists fl.
Qed.

(** C1 (as amended).  When the pipeline returns, every key column [c] is
    still there with as many cells; each cell that was missing holds the
    median [m] of the non-missing values of that column as they were on
    input, clipped at zero like every other cell ([m] itself when it is at
    or above zero, zero when it is negative); and no cell of the column is
    missing provided [m] is not NaN. *)
Theorem C1_missing_cells_hold_clipped_median df out df' k :
  pipeline df = Ok (out, df') ->
  In k key_columns ->
  exists c m c',
    lookup df k = Some c /\ median k c = Ok m /\
    lookup df' k = Some c' /\ col_length c' = col_length c /\
    (is_nan m = false -> count_na c' = 0%nat) /\
    (forall xs,
        c = FloatCol xs ->
        m = F64.median (filter F64.notna xs) /\
        exists ys, c' = FloatCol ys /\ filled_with m xs ys).
Proof.
  intros H Hk.
  destruct (pipeline_columns _ _ _ H) as (K & _ & _ & _ & Lk & _).
  rewrite keys_numeric_spec in K. destruct (K k Hk) as (c & E & Hc).
  destruct (median_fillna k c (numeric_fillable c Hc)) as (m & Hm & Hf).
  exists c, m, (cleaned_column c).
  split; [exact E |]. split; [exact Hm |]. split; [| split; [| split]].
  - rewrite Lk, (key_not_Comments k Hk).
    apply mem_In in Hk. now rewrite Hk, E.
  - unfold cleaned_column. now rewrite col_length_clipped, col_length_imputed.
  - intros N. destruct c as [xs | zs | ss]; try discriminate.
    + injection Hm as <-. unfold cleaned_column.
      cbn [imputed_column clipped_column]. apply count_na_float.
      intros y Hy. apply in_map_iff in Hy. destruct Hy as (y' & <- & Hy').
      apply in_map_iff in Hy'. destruct Hy' as (x & <- & _).
      rewrite clip_float_is_nan. now apply fillna_float_is_nan.
    + apply count_na_int.
  - intros xs ->. injection Hm as <-. split; [reflexivity |].
    eexists. split; [reflexivity |]. unfold filled_with.
    rewrite map_map. apply Forall2_map_r. intros x N.
    now rewrite (fillna_float_missing _ _ N).
Qed.

(** C2 (as amended).  A key column of floats with no value at all does not
    stop the pipeline: its median is NaN, filling with NaN and clipping
    change nothing, and when the key columns are all numeric the pipeline
    returns with the column as it was, every cell still missing. *)
Theorem C2_all_missing_column_stays_missing df k xs :
  keys_numeric df = true ->
  In k key_columns ->
  lookup df k = Some (FloatCol xs) ->
  forallb is_nan xs = true ->
  median k (FloatCol xs) = Ok nan /\
  exists out df',
    pipeline df = Ok (out, df') /\
    lookup df' k = Some (FloatCol xs) /\
    count_na (FloatCol xs) = List.length xs.
Proof.
  intros K Hk E A. split.
  - unfold median. cbn [dropna_values rbind].
    now rewrite (filter_all_missing _ A).
  - destruct (pipeline_spec df K) as (fl & df' & _ & R & _ & Lk & _).
    eexists. exists df'. split; [exact R |]. split.
    + rewrite Lk, (key_not_Comments k Hk).
      apply mem_In in Hk. rewrite Hk, E. cbn [option_map].
      now rewrite (cleaned_all_missing _ A).
    + unfold count_na. cbn [isna]. clear - A.
      induction xs as [| x xs IH]; [reflexivity |].
      cbn [forallb] in A. apply andb_true_iff in A. destruct A as (N & A).
      cbn [map filter]. rewrite N. cbn [List.length]. now rewrite IH.
Qed.

(** C5. On a frame whose columns all have the length of the index, when
    the pipeline returns, the frame has as many rows as before and is
    still aligned; its columns are those of the input without [Comments],
    in order; each is the input column itself or, for a key column, the
    input column filled and clipped cell by cell, so row [i] is made from
    row [i]; the file has one record per row, in index order; and every
    row the detector flagged is a row of the result. *)
Theorem C5_rows_kept_in_order df out df' :
  aligned df = true ->
  pipeline df = Ok (out, df') ->
  len df' = len df /\
  aligned df' = true /\
  labels df' =
    filter (fun l => negb (String.eqb l "Comments")) (labels df) /\
  (forall l c',
      lookup df' l = Some c' ->
      exists c,
        lookup df l = Some c /\ col_length c' = col_length c /\
        c' = if mem l key_columns then cleaned_column c else c) /\
  records (snd out) =
    map (fun i => map (fun lc => field_at (snd lc) i) df')
      (seq 0 (len df)) /\
  List.length (records (snd out)) = len df /\
  Forall (fun i => i < len df') (flagged (snd (fst out))).
Proof.
  intros A H.
  destruct (pipeline_columns _ _ _ H)
    as (K & Hf & (fl & O & Ho) & Lb & Lk & Ln).
  pose proof (Ln _ (aligned_all_len _ A)) as Hn.
  assert (L : len df' = len df).
  { rewrite keys_numeric_spec in K.
    destruct (K "GHI") as (c & E & _); [now left |].
    apply (all_len_len _ _ "GHI" (cleaned_column c) Hn).
    rewrite Lk. cbn. now rewrite E. }
  split; [exact L |]. split; [now apply (all_len_aligned _ _ Hn) |].
  split; [| split; [| split; [| split]]].
  - rewrite Lb. apply filter_ext. intros l. unfold mem. cbn [existsb].
    now rewrite orb_false_r.
  - intros l c' E'. rewrite Lk in E'.
    destruct (mem l ["Comments"]); [discriminate |].
    destruct (mem l key_columns).
    + destruct (lookup df l) as [c |]; [| discriminate].
      injection E' as <-. exists c. repeat split.
      unfold cleaned_column.
      now rewrite col_length_clipped, col_length_imputed.
    + now exists c'.
  - rewrite Hf. unfold to_csv. cbn [records]. now rewrite L.
  - rewrite Hf. unfold to_csv. cbn [records].
    now rewrite length_map, length_seq.
  - rewrite Ho. cbn [flagged report_of]. apply Forall_forall. intros i Hi.
    apply flagged_rows_lt in Hi. rewrite (outliers_length _ _ O) in Hi.
    now rewrite L.
Qed.

(** C10. When the pipeline returns, a column that is neither a key column
    nor [Comments] is in the frame exactly when it was, with the very
    cells it had: missing cells still missing, negative values still
    negative. *)
Theorem C10_other_columns_pass_through df out df' l :
  pipeline df = Ok (out, df') ->
  ~ In l key_columns ->
  l <> "Comments" ->
  lookup df' l = lookup df l /\
  (In l (labels df') <-> In l (labels df)).
Proof.
  intros H Hk Hl.
  destruct (pipeline_columns _ _ _ H) as (_ & _ & _ & Lb & Lk & _).
  assert (M : mem l ["Comments"] = false).
  { apply mem_not_In. intros [E | []]. now symmetry in E. }
  split.
  - apply mem_not_In in Hk. now rewrite Lk, M, Hk.
  - rewrite Lb, filter_In, M. cbn [negb]. tauto.
Qed.

End Pipeline.

(** ** The properties on the sample frames *)

Section SampleRuns.

Import Pd Frame Notebook.

Local Open Scope float_scope.
Local Open Scope nb_scope.

Lemma sparse_runs :
  pipeline Samples.sparse = Ok (Samples.sparse_out, Samples.sparse_cleaned).
Proof. vm_compute. reflexivity. Defined.

Lemma spike_runs :
  pipeline Samples.spike = Ok (Samples.spike_out, Samples.spike_cleaned).
Proof. vm_compute. reflexivity. Defined.

Lemma spike_outliers : outliers Samples.spike = Ok Samples.spike_flags.
Proof. vm_compute. reflexivity. Defined.

Lemma WS_is_key : In "WS" key_columns.
Proof. unfold key_columns. cbn [In]. auto 10. Defined.

Lemma GHI_is_key : In "GHI" key_columns.
Proof. unfold key_columns. cbn [In]. auto 10. Defined.

Lemma Tamb_not_key : ~ In "Tamb" key_columns.
Proof. unfold key_columns. cbn [In]. intuition discriminate. Defined.

(** The [WS] column of [sparse] has a missing cell in row 1 and the
    median -4 over the other two; after the pipeline the cell holds 0, not
    -4.  The [GHI] column has no value; after the pipeline its three cells
    are still missing. *)
Lemma C1_counterexample :
  pipeline Samples.sparse = Ok (Samples.sparse_out, Samples.sparse_cleaned) /\
  lookup Samples.sparse "WS" = Some (FloatCol [-5; nan; -3]) /\
  median "WS" (FloatCol [-5; nan; -3]) = Ok (-4) /\
  lookup Samples.sparse_cleaned "WS" = Some (FloatCol [0; 0; 0]) /\
  nth 1 [0; 0; 0] nan <> -4 /\
  lookup Samples.sparse "GHI" = Some (FloatCol [nan; nan; nan]) /\
  lookup Samples.sparse_cleaned "GHI" = Some (FloatCol [nan; nan; nan]) /\
  count_na (FloatCol [nan; nan; nan]) = 3%nat.
Proof.
  split; [exact sparse_runs |].
  repeat (split; [vm_compute; reflexivity |]).
  split; [| split; [| split]]; try (vm_compute; reflexivity).
  cbn [nth]. intros E. apply (f_equal (fun x => x <? -1)) in E.
  vm_compute in E. discriminate.
Qed.

Lemma C1_witness :
  pipeline Samples.sparse = Ok (Samples.sparse_out, Samples.sparse_cleaned) /\
  In "WS" key_columns /\
  exists c m c',
    lookup Samples.sparse "WS" = Some c /\ median "WS" c = Ok m /\
    lookup Samples.sparse_cleaned "WS" = Some c' /\
    col_length c' = col_length c /\
    (is_nan m = false -> count_na c' = 0%nat) /\
    (forall xs,
        c = FloatCol xs ->
        m = F64.median (filter F64.notna xs) /\
        exists ys, c' = FloatCol ys /\ filled_with m xs ys).
Proof.
  split; [exact sparse_runs |]. split; [exact WS_is_key |].
  exact (C1_missing_cells_hold_clipped_median
           _ _ _ _ sparse_runs WS_is_key).
Defined.

(** [GHI] of [sparse] has no value at all; the imputation loop and the
    whole pipeline return all the same, and [GHI] is still all missing. *)
Lemma C2_counterexample :
  lookup Samples.sparse "GHI" = Some (FloatCol [nan; nan; nan]) /\
  forallb is_nan [nan; nan; nan] = true /\
  (exists df1,
      impute Samples.sparse = Ok (tt, df1) /\
      lookup df1 "GHI" = Some (FloatCol [nan; nan; nan])) /\
  pipeline Samples.sparse = Ok (Samples.sparse_out, Samples.sparse_cleaned) /\
  lookup Samples.sparse_cleaned "GHI" = Some (FloatCol [nan; nan; nan]).
Proof.
  split; [reflexivity |]. split; [reflexivity |]. split.
  - eexists. split; vm_compute; reflexivity.
  - split; [exact sparse_runs | vm_compute; reflexivity].
Qed.

Lemma C2_witness :
  keys_numeric Samples.sparse = true /\
  In "GHI" key_columns /\
  lookup Samples.sparse "GHI" = Some (FloatCol [nan; nan; nan]) /\
  forallb is_nan [nan; nan; nan] = true /\
  median "GHI" (FloatCol [nan; nan; nan]) = Ok nan /\
  exists out df',
    pipeline Samples.sparse = Ok (out, df') /\
    lookup df' "GHI" = Some (FloatCol [nan; nan; nan]) /\
    count_na (FloatCol [nan; nan; nan]) = List.length [nan; nan; nan].
Proof.
  split; [reflexivity |]. split; [exact GHI_is_key |].
  split; [reflexivity |]. split; [reflexivity |].
  exact (C2_all_missing_column_stays_missing
           Samples.sparse "GHI" [nan; nan; nan]
           eq_refl GHI_is_key eq_refl eq_refl).
Defined.



(** The scores behind the flags of [surge]: row 0 for its [WS], row 11
    for its [DHI], and none for row 9, whose [ModA] scores just under 3. *)
Example surge_scores :
  standardized (FloatCol [-2.5; 1; 1; 1; 1; 1; 1; 1; 1; 1; 1; 1]) (-2.5)
  = -3.3166247903553998 /\
  standardized
    (IntCol [0; 0; 0; 0; 0; 0; 0; 0; 0; 0; 0; -9223372036854775808]%Z)
    (F64.of_Z (-9223372036854775808))
  = -3.3166247903553998 /\
  standardized
    (FloatCol [0.1; 0.1; 0.1; 0.1; 0.1; 0.1; 0.1; 0.1; 0.1; 0.2; nan; nan])
    0.2
  = 2.9999999999999996.
Proof. repeat split; vm_compute; reflexivity. Qed.

(** The scores behind the two flags of [spike], and the statistics of its
    [WS] column. *)
Example spike_scores :
  column_mean (FloatCol [-2.5; 1; 1; 1; 1; 1; 1; 1; 1; 1; 1; 1])
  = 0.70833333333333337 /\
  column_deviation (FloatCol [-2.5; 1; 1; 1; 1; 1; 1; 1; 1; 1; 1; 1])
  = 0.96734889718699169 /\
  Scipy.zscore "WS" (FloatCol [-2.5; 1; 1; 1; 1; 1; 1; 1; 1; 1; 1; 1])
  = Ok [-3.3166247903553998;
        0.30151134457776357; 0.30151134457776357; 0.30151134457776357;
        0.30151134457776357; 0.30151134457776357; 0.30151134457776357;
        0.30151134457776357; 0.30151134457776357; 0.30151134457776357;
        0.30151134457776357; 0.30151134457776357] /\
  nth 11
    (scores (FloatCol [50; 51; 49; 50; 52; 48; 50; 51; 49; 50; 50; 500])) nan
  = 3.3165175915192635.
Proof. repeat split; vm_compute; reflexivity. Qed.

(** At the threshold the order of the additions decides: nine values 0.1
    and one 0.2 give the last value a score just under 3. *)
Example score_under_the_threshold :
  Scipy.score [0.1; 0.1; 0.1; 0.1; 0.1; 0.1; 0.1; 0.1; 0.1; 0.2] 0.2
  = 2.9999999999999996 /\
  exceeds 2.9999999999999996 = false.
Proof. split; vm_compute; reflexivity. Qed.

(** An [int64] column is scored on its values as floats, the least
    [int64] included. *)
Example least_int64_is_scored :
  F64.of_Z (-9223372036854775808) = -9.2233720368547758e+18 /\
  Scipy.zscore "DHI"
    (IntCol [0; 0; 0; 0; 0; 0; 0; 0; 0; 0; -9223372036854775808]%Z)
  = Ok [0.31622776601683794; 0.31622776601683794; 0.31622776601683794;
        0.31622776601683794; 0.31622776601683794; 0.31622776601683794;
        0.31622776601683794; 0.31622776601683794; 0.31622776601683794;
        0.31622776601683794; -3.1622776601683795] /\
  exceeds (-3.1622776601683795) = true.
Proof. repeat split; vm_compute; reflexivity. Qed.

Lemma sparse_normalizes :
  normalize Samples.sparse = Ok (tt, Samples.sparse_normalized).
Proof. vm_compute. reflexivity. Defined.

Lemma C4_witness :
  normalize Samples.sparse = Ok (tt, Samples.sparse_normalized) /\
  In "WS" key_columns /\
  lookup Samples.sparse "WS" = Some (FloatCol [-5; nan; -3]) /\
  lookup Samples.sparse_normalized "WS" = Some (FloatCol [0; nan; 0]) /\
  clipped (FloatCol [-5; nan; -3]) (FloatCol [0; nan; 0]).
Proof.
  split; [exact sparse_normalizes |]. split; [exact WS_is_key |].
  destruct (C4_normalizer_clips_negatives_to_zero
              _ _ _ _ sparse_normalizes WS_is_key) as (c & c' & E & E' & H).
  vm_compute in E, E'. injection E as <-. injection E' as <-.
  split; [reflexivity |]. split; [reflexivity | exact H].
Defined.

(** A file that has only its header: every column is of dtype object and
    has no row.  The Normalizer returns on it, with nothing to clip. *)
Example normalize_header_only :
  normalize
    [("GHI", ObjCol []); ("DNI", ObjCol []); ("DHI", ObjCol []);
     ("ModA", ObjCol []); ("ModB", ObjCol []); ("WS", ObjCol []);
     ("WSgust", ObjCol []); ("Comments", ObjCol [])]
  = Ok (tt,
        [("GHI", ObjCol []); ("DNI", ObjCol []); ("DHI", ObjCol []);
         ("ModA", ObjCol []); ("ModB", ObjCol []); ("WS", ObjCol []);
         ("WSgust", ObjCol [])]).
Proof. reflexivity. Qed.

(** The report of [sparse] as printed: five of its eleven columns.  [DNI],
    a column of the frame, has no row in it. *)
Lemma C6_counterexample :
  In ("DNI", FloatCol [1; 2; 3]) Samples.sparse /\
  printed_missing_report Samples.sparse
  = [{| label := "GHI"; Missing_Values := 3; Percentage := 100 |};
     {| label := "WS"; Missing_Values := 1;
        Percentage := 33.333333333333329 |};
     {| label := "WSgust"; Missing_Values := 1;
        Percentage := 33.333333333333329 |};
     {| label := "Tamb"; Missing_Values := 1;
        Percentage := 33.333333333333329 |};
     {| label := "Comments"; Missing_Values := 3; Percentage := 100 |}] /\
  ~ covers Samples.sparse (printed_missing_report Samples.sparse).
Proof.
  assert (D : In ("DNI", FloatCol [1; 2; 3]) Samples.sparse)
    by (cbn; auto 10).
  split; [exact D |]. split; [vm_compute; reflexivity |].
  intros H. destruct (H _ _ D) as (r & Hr & E).
  vm_compute in Hr.
  repeat (destruct Hr as [<- | Hr]; [discriminate E |]).
  exact Hr.
Qed.

Lemma WS_in_sparse : In ("WS", FloatCol [-5; nan; -3]) Samples.sparse.
Proof. cbn. auto 10. Defined.

Lemma C6_witness :
  In ("WS", FloatCol [-5; nan; -3]) Samples.sparse /\
  profile Samples.sparse = Ok (missing_report Samples.sparse, Samples.sparse) /\
  In {| label := "WS"; Missing_Values := 1;
        Percentage := 33.333333333333329 |}
    (missing_report Samples.sparse) /\
  (In {| label := "WS"; Missing_Values := 1;
         Percentage := 33.333333333333329 |}
     (printed_missing_report Samples.sparse) <->
   (5 <? 33.333333333333329) = true).
Proof.
  split; [exact WS_in_sparse |].
  destruct (C6_missing_report_printed_above_5_percent
              Samples.sparse "WS" (FloatCol [-5; nan; -3]) WS_in_sparse)
    as (P & _ & _ & R & I).
  split; [exact P |]. split; [exact R | exact I].
Defined.

Lemma C5_witness :
  aligned Samples.sparse = true /\
  pipeline Samples.sparse = Ok (Samples.sparse_out, Samples.sparse_cleaned) /\
  len Samples.sparse_cleaned = len Samples.sparse /\
  List.length (records (snd Samples.sparse_out)) = len Samples.sparse.
Proof.
  split; [reflexivity |]. split; [exact sparse_runs |].
  pose proof (C5_rows_kept_in_order Samples.sparse _ _ eq_refl sparse_runs)
    as H.
  split; [exact (proj1 H) |].
  exact (proj1 (proj2 (proj2 (proj2 (proj2 (proj2 H)))))).
Defined.

Lemma C7_witness :
  keys_numeric Samples.sparse = true /\
  exists df',
    normalize Samples.sparse = Ok (tt, df') /\
    ~ In "Comments" (labels df') /\
    lookup df' "Comments" = None /\
    labels df' =
      filter (fun l => negb (String.eqb l "Comments"))
        (labels Samples.sparse) /\
    (~ In "Comments" (labels Samples.sparse) ->
     labels df' = labels Samples.sparse) /\
    (forall l, l <> "Comments" -> ~ In l key_columns ->
               lookup df' l = lookup Samples.sparse l).
Proof.
  split; [reflexivity |].
  exact (proj2 (proj2 (C7_normalizer_removes_comments Samples.sparse))
           eq_refl).
Defined.

Lemma tidy_no_Comments : ~ In "Comments" (labels Samples.tidy).
Proof. cbn. intuition discriminate. Defined.

Lemma C8_witness :
  unique_labels Samples.tidy = true /\
  ~ In "Comments" (labels Samples.tidy) /\
  keys_clean Samples.tidy = true /\
  normalize Samples.tidy = Ok (tt, Samples.tidy) /\
  (normalize ;;; normalize) Samples.tidy = Ok (tt, Samples.tidy).
Proof.
  split; [reflexivity |]. split; [exact tidy_no_Comments |].
  split; [reflexivity |].
  exact (C8_normalizer_idempotent_on_clean_frames
           Samples.tidy eq_refl tidy_no_Comments eq_refl).
Defined.

Lemma spike_detects :
  detect_outliers Samples.spike =
  Ok (report_of Samples.spike_flags, Samples.spike).
Proof. vm_compute. reflexivity. Defined.

Lemma C9_witness :
  detect_outliers Samples.spike =
    Ok (report_of Samples.spike_flags, Samples.spike) /\
  Samples.spike = Samples.spike /\
  (o1 <- detect_outliers ;; o2 <- detect_outliers ;; ret (o1, o2))
    Samples.spike =
  Ok ((report_of Samples.spike_flags, report_of Samples.spike_flags),
      Samples.spike) /\
  flagged (report_of Samples.spike_flags) =
  flagged_rows (flags (report_of Samples.spike_flags)).
Proof.
  split; [exact spike_detects |].
  exact (C9_detector_leaves_frame_unchanged _ _ _ spike_detects).
Defined.

Lemma C10_witness :
  pipeline Samples.sparse = Ok (Samples.sparse_out, Samples.sparse_cleaned) /\
  ~ In "Tamb" key_columns /\
  "Tamb" <> "Comments" /\
  lookup Samples.sparse_cleaned "Tamb" = lookup Samples.sparse "Tamb" /\
  (In "Tamb" (labels Samples.sparse_cleaned) <->
   In "Tamb" (labels Samples.sparse)).
Proof.
  split; [exact sparse_runs |]. split; [exact Tamb_not_key |].
  assert (N : "Tamb" <> "Comments") by discriminate.
  split; [exact N |].
  exact (C10_other_columns_pass_through _ _ _ _ sparse_runs Tamb_not_key N).
Defined.

(** A scenario in the manner of the specification's, on [spike]: the
    missing [GHI] cell takes the median of the other eleven, the negative
    [WS] value becomes zero, the rows flagged are the one with the [ModA]
    spike and the one with the lone negative [WS] (a single deviating value
    among twelve scores the root of eleven), and the twelve rows are all
    there. *)
Example spike_scenario :
  flagged (snd (fst Samples.spike_out)) = [0%nat; 11%nat] /\
  lookup Samples.spike_cleaned "GHI"
  = Some (FloatCol [7; 2; 3; 4; 5; 6; 7; 8; 9; 10; 11; 12]) /\
  lookup Samples.spike_cleaned "WS"
  = Some (FloatCol [0; 1; 1; 1; 1; 1; 1; 1; 1; 1; 1; 1]) /\
  len Samples.spike_cleaned = 12%nat.
Proof. repeat split; vm_compute; reflexivity. Qed.

End SampleRuns.

(** * Further properties of the cells *)

(** ** Frames with unique labels *)

Section FrameEquality.

Import Pd Frame Notebook.

(** Two frames with the same labels, all different, and the same column
    under each label are the same frame. *)
Lemma frame_ext d d' :
  NoDup (labels d) ->
  labels d' = labels d ->
  (forall l, lookup d' l = lookup d l) ->
  d' = d.
Proof.
  revert d'. induction d as [| [l c] d IH]; intros [| [l' c'] d'] N Lb Lk;
    try discriminate; [reflexivity |].
  cbn [labels map fst] in Lb, N. injection Lb as -> Lb.
  inversion N as [| ? ? Hn N']; subst.
  pose proof (Lk l) as E. cbn [lookup] in E.
  rewrite String.eqb_refl in E. injection E as ->.
  f_equal. apply IH; [exact N' | exact Lb |].
  intros x. specialize (Lk x). cbn [lookup] in Lk.
  destruct (String.eqb l x) eqn:Elx; [| exact Lk].
  apply String.eqb_eq in Elx. subst x.
  rewrite (lookup_none d l Hn). apply lookup_none.
  unfold labels in *. now rewrite Lb.
Qed.

End FrameEquality.

(** ** The imputation loop on its own *)

Section Imputer.

Import Pd Frame Notebook.

Local Open Scope float_scope.

Lemma imputed_column_imputed c :
  fillable c = true -> imputed c (imputed_column c).
Proof.
  destruct c as [xs | zs | [| s ss]]; intros H; try discriminate; cbn;
    [| reflexivity | exact I].
  exists (F64.median (filter F64.notna xs)).
  split; [apply median_of_dropna |].
  apply Forall2_map_r. intros x. split.
  - apply fillna_float_present.
  - apply fillna_float_missing.
Qed.

Lemma filter_none_missing ys :
  (forall y, In y ys -> is_nan y = false) ->
  forall m, map (fillna_float m) ys = ys.
Proof.
  intros H m. rewrite <- map_id. apply map_ext_in. intros y Hy.
  now apply fillna_float_present, H.
Qed.

(** Filling a column that was filled changes nothing: either the median
    was NaN and nothing was filled, or no cell is missing any more. *)
Lemma imputed_column_idem c :
  imputed_column (imputed_column c) = imputed_column c.
Proof.
  destruct c as [xs | zs | ss]; cbn [imputed_column]; try reflexivity.
  set (m := F64.median (filter F64.notna xs)).
  destruct (is_nan m) eqn:N.
  - apply is_nan_eq in N. rewrite N.
    assert (E : map (fillna_float nan) xs = xs).
    { rewrite <- map_id. apply map_ext. apply fillna_float_nan. }
    rewrite E. fold m. now rewrite N, E.
  - f_equal. apply filter_none_missing. intros y Hy.
    apply in_map_iff in Hy. destruct Hy as (x & <- & _).
    now apply fillna_float_is_nan.
Qed.

Lemma impute_column_inv k df u df1 :
  impute_column k df = Ok (u, df1) ->
  exists c,
    lookup df k = Some c /\ fillable c = true /\
    df1 = setitem df k (imputed_column c).
Proof.
  unfold impute_column. cbv beta delta [bind get call put]. cbv beta iota.
  unfold getitem. destruct (lookup df k) as [c |]; [| discriminate].
  destruct c as [xs | zs | [| s ss]]; cbn; try discriminate;
    intros [= <- <-]; eexists; repeat split.
Qed.

Lemma impute_loop_inv ks :
  forall df u df',
    for_each ks impute_column df = Ok (u, df') ->
    forall k, In k ks -> present_fillable df k.
Proof.
  induction ks as [| k0 ks IH]; intros df u df' H k Hk; [easy |].
  cbn [for_each] in H. unfold bind in H.
  destruct (impute_column k0 df) as [[u1 df1] |] eqn:E1; [| discriminate].
  apply impute_column_inv in E1. destruct E1 as (c & E & Hc & ->).
  destruct Hk as [<- | Hk]; [now exists c |].
  destruct (IH _ _ _ H k Hk) as (c' & E' & Hc').
  rewrite lookup_setitem in E'.
  destruct (String.eqb k0 k) eqn:Ek.
  - apply String.eqb_eq in Ek. subst k0. now exists c.
  - now exists c'.
Qed.

(** What the loop leaves, when it returns. *)
Lemma impute_columns df u df' :
  impute df = Ok (u, df') ->
  (forall k, In k key_columns -> present_fillable df k) /\
  labels df' = labels df /\
  (forall l,
      lookup df' l =
      if mem l key_columns then option_map imputed_column (lookup df l)
      else lookup df l) /\
  (forall n, all_len n df -> all_len n df').
Proof.
  intros H. unfold impute in H.
  pose proof (impute_loop_inv _ _ _ _ H) as K. split; [exact K |].
  destruct (impute_loop key_columns key_columns_NoDup df K)
    as (d & R & Lb & Lk & Ln).
  rewrite R in H. apply Ok_inj in H. injection H as _ <-.
  now repeat split.
Qed.

(** X1. When the imputation loop returns, the frame has the labels it had,
    in order; a column that is not a key column is the one it was; a key
    column keeps its dtype and its length, every cell that held a value
    holds the same value, and every missing cell of a float column holds
    a median of that column's own values as they were before the loop:
    the middle of these values put in ascending order. *)
Theorem impute_fills_only_missing_cells df u df' :
  impute df = Ok (u, df') ->
  labels df' = labels df /\
  (forall l, ~ In l key_columns -> lookup df' l = lookup df l) /\
  (forall k, In k key_columns ->
     exists c c',
       lookup df k = Some c /\ lookup df' k = Some c' /\
       imputed c c' /\ col_length c' = col_length c).
Proof.
  intros H. destruct (impute_columns _ _ _ H) as (K & Lb & Lk & _).
  split; [exact Lb |]. split.
  - intros l Hl. apply mem_not_In in Hl. now rewrite Lk, Hl.
  - intros k Hk. destruct (K k Hk) as (c & E & Hc).
    exists c, (imputed_column c). split; [exact E |].
    apply mem_In in Hk. rewrite Lk, Hk, E.
    split; [reflexivity |].
    split; [now apply imputed_column_imputed | apply col_length_imputed].
Qed.

(** X2. On a frame with unique labels, the imputation loop run on what it
    returned returns it again: a second pass fills nothing. *)
Theorem impute_twice_is_impute_once df u df' :
  unique_labels df = true ->
  impute df = Ok (u, df') ->
  impute df' = Ok (tt, df').
Proof.
  intros U H. apply distinct_NoDup in U.
  destruct (impute_columns _ _ _ H) as (K & Lb & Lk & _).
  assert (K' : forall k, In k key_columns -> present_fillable df' k).
  { intros k Hk. destruct (K k Hk) as (c & E & Hc).
    exists (imputed_column c). split; [| now rewrite fillable_imputed].
    apply mem_In in Hk. now rewrite Lk, Hk, E. }
  destruct (impute_loop key_columns key_columns_NoDup df' K')
    as (d & R & Lb2 & Lk2 & _).
  assert (E : d = df'); [| unfold impute; now rewrite <- E at 2].
  apply frame_ext; [now rewrite Lb | exact Lb2 |].
  intros l. rewrite Lk2, Lk.
  destruct (mem l key_columns); [| reflexivity].
  destruct (lookup df l) as [c |]; [| reflexivity].
  cbn [option_map]. now rewrite imputed_column_idem.
Qed.

End Imputer.

(** ** What the outlier cell prints *)

Section OutlierReport.

Import Pd Frame Notebook.

Local Open Scope float_scope.

Lemma filter_map_comm {A B} (f : B -> bool) (g : A -> B) l :
  filter f (map g l) = map g (filter (fun a => f (g a)) l).
Proof.
  induction l as [| a l IH]; cbn [map filter]; [reflexivity |].
  destruct (f (g a)); cbn [map]; now rewrite IH.
Qed.

(** The flagged rows of a mask, from its head and its tail. *)
Lemma flagged_rows_cons b m :
  flagged_rows (b :: m) =
  (if b then [0%nat] else []) ++ map S (flagged_rows m).
Proof.
  unfold flagged_rows. cbn [List.length seq filter nth].
  rewrite <- seq_shift, filter_map_comm. cbn [nth].
  now destruct b.
Qed.

Lemma flagged_rows_count m :
  List.length (flagged_rows m) = List.length (filter (fun b => b) m).
Proof.
  induction m as [| b m IH]; [reflexivity |].
  rewrite flagged_rows_cons, length_app, length_map, IH.
  now destruct b.
Qed.

Lemma flagged_rows_ascending m : StronglySorted lt (flagged_rows m).
Proof.
  induction m as [| b m IH]; [constructor |].
  rewrite flagged_rows_cons.
  assert (S' : StronglySorted lt (map S (flagged_rows m))).
  { induction IH as [| i l _ IHl Hi]; cbn [map]; constructor;
      [exact IHl |].
    rewrite Forall_forall in *. intros j Hj. apply in_map_iff in Hj.
    destruct Hj as (j' & <- & Hj'). specialize (Hi j' Hj'). lia. }
  destruct b; cbn [app]; [| exact S'].
  constructor; [exact S' |]. apply Forall_forall. intros j Hj.
  apply in_map_iff in Hj. destruct Hj as (j' & <- & _). lia.
Qed.

Lemma count_le_length m :
  List.length (filter (fun b : bool => b) m) <= List.length m.
Proof. apply filter_length_le. Qed.

(** Row [j] under a mask is the row at the [j]-th flagged index. *)
Lemma mask_list_rows {A} (m : list bool) :
  forall (l : list A) j,
    List.length m = List.length l ->
    nth_error (mask_list m l) j =
    match nth_error (flagged_rows m) j with
    | Some i => nth_error l i
    | None => None
    end.
Proof.
  unfold mask_list.
  induction m as [| b m IH]; intros [| a l] j E; try discriminate.
  - now destruct j.
  - injection E as E. rewrite flagged_rows_cons.
    cbn [combine filter fst].
    destruct b; cbn [map snd app].
    + destruct j as [| j]; [reflexivity |]. cbn [nth_error].
      rewrite (IH l j E), nth_error_map.
      now destruct (nth_error (flagged_rows m) j).
    + rewrite (IH l j E), nth_error_map.
      now destruct (nth_error (flagged_rows m) j).
Qed.

Lemma mask_list_length {A} (m : list bool) :
  forall (l : list A),
    List.length m = List.length l ->
    List.length (mask_list m l) = List.length (filter (fun b => b) m).
Proof.
  unfold mask_list.
  induction m as [| b m IH]; intros [| a l] E; try discriminate;
    [reflexivity |].
  injection E as E. cbn [combine filter fst].
  destruct b; cbn [map List.length]; now rewrite (IH l E).
Qed.

Lemma cell_at_float xs i :
  cell_at (FloatCol xs) i =
  option_map (fun x => if is_nan x then Empty else Float x) (nth_error xs i).
Proof.
  unfold cell_at. cbn [col_length field_at].
  destruct (Nat.ltb_spec i (List.length xs)) as [H | H].
  - now rewrite (nth_error_nth' xs nan H).
  - apply nth_error_None in H. now rewrite H.
Qed.

Lemma cell_at_int zs i :
  cell_at (IntCol zs) i = option_map Int (nth_error zs i).
Proof.
  unfold cell_at. cbn [col_length field_at].
  destruct (Nat.ltb_spec i (List.length zs)) as [H | H].
  - now rewrite (nth_error_nth' zs 0%Z H).
  - apply nth_error_None in H. now rewrite H.
Qed.

Lemma cell_at_obj ss i :
  cell_at (ObjCol ss) i =
  option_map (fun s => match s with Some t => Text t | None => Empty end)
    (nth_error ss i).
Proof.
  unfold cell_at. cbn [col_length field_at].
  destruct (Nat.ltb_spec i (List.length ss)) as [H | H].
  - now rewrite (nth_error_nth' ss None H).
  - apply nth_error_None in H. now rewrite H.
Qed.

Lemma mask_col_rows m c j :
  List.length m = col_length c ->
  cell_at (mask_col m c) j =
  match nth_error (flagged_rows m) j with
  | Some i => cell_at c i
  | None => None
  end.
Proof.
  destruct c as [xs | zs | ss]; cbn [col_length mask_col]; intros E.
  - rewrite cell_at_float, (mask_list_rows m xs j E).
    destruct (nth_error (flagged_rows m) j); [| reflexivity].
    now rewrite cell_at_float.
  - rewrite cell_at_int, (mask_list_rows m zs j E).
    destruct (nth_error (flagged_rows m) j); [| reflexivity].
    now rewrite cell_at_int.
  - rewrite cell_at_obj, (mask_list_rows m ss j E).
    destruct (nth_error (flagged_rows m) j); [| reflexivity].
    now rewrite cell_at_obj.
Qed.

Lemma mask_col_length m c :
  List.length m = col_length c ->
  col_length (mask_col m c) = List.length (filter (fun b => b) m).
Proof.
  destruct c; cbn [col_length mask_col]; apply mask_list_length.
Qed.

Lemma lookup_mask_rows df m l :
  lookup (mask_rows df m) l = option_map (mask_col m) (lookup df l).
Proof.
  unfold mask_rows.
  induction df as [| [l0 c0] df IH]; cbn [map lookup fst snd];
    [reflexivity |].
  now destruct (String.eqb l0 l).
Qed.

Lemma lookup_keyed (g : string -> column) ks l :
  lookup (map (fun k => (k, g k)) ks) l =
  if mem l ks then Some (g l) else None.
Proof.
  unfold mem.
  induction ks as [| k ks IH]; cbn [map lookup existsb]; [reflexivity |].
  destruct (String.eqb k l) eqn:E.
  - apply String.eqb_eq in E. subst l. now rewrite String.eqb_refl.
  - apply eqb_sym_false in E. rewrite E. cbn [orb]. apply IH.
Qed.

(** X3. When the detector returns on a frame whose columns have the length
    of the index, the number it prints ([outliers.sum()]) is the number of
    flagged rows and at most the number of rows; the flagged indices are
    strictly ascending; and the frame it prints ([df[outliers][key_columns]])
    has the key columns only, in the order of [key_columns], with one row
    per flagged row: its row [j] is the row of [df] at the [j]-th flagged
    index. *)
Theorem outlier_printout_matches_the_flags df fl :
  aligned df = true ->
  outliers df = Ok fl ->
  count (report_of fl) = List.length (flagged (report_of fl)) /\
  count (report_of fl) <= len df /\
  StronglySorted lt (flagged (report_of fl)) /\
  exists shown,
    outlier_rows df fl = Ok shown /\
    labels shown = key_columns /\
    all_len (count (report_of fl)) shown /\
    forall k,
      In k key_columns ->
      exists c c',
        lookup df k = Some c /\ lookup shown k = Some c' /\
        forall j,
          cell_at c' j =
          match nth_error (flagged (report_of fl)) j with
          | Some i => cell_at c i
          | None => None
          end.
Proof.
  intros A O. cbn [count flagged report_of].
  pose proof (outliers_length _ _ O) as Lf.
  pose proof (aligned_all_len _ A) as Hn.
  pose proof (outliers_inv _ _ O) as K. rewrite keys_numeric_spec in K.
  split; [symmetry; apply flagged_rows_count |].
  split; [rewrite <- Lf; apply count_le_length |].
  split; [apply flagged_rows_ascending |].
  assert (P : forall k, In k key_columns ->
                        present_numeric (mask_rows df fl) k).
  { intros k Hk. destruct (K k Hk) as (c & E & Hc).
    exists (mask_col fl c). rewrite lookup_mask_rows, E.
    split; [reflexivity | now destruct c]. }
  eexists. split; [unfold outlier_rows; apply (getitems_total _ _ P) |].
  split; [| split].
  - unfold labels. rewrite map_map. cbn [fst]. apply map_id.
  - unfold all_len. apply Forall_forall. intros lc Hin.
    apply in_map_iff in Hin. destruct Hin as (k & <- & Hk). cbn [snd].
    destruct (K k Hk) as (c & E & _). unfold pick.
    rewrite lookup_mask_rows, E. cbn [option_map].
    apply mask_col_length. rewrite Lf.
    symmetry. apply (all_len_lookup _ _ _ _ Hn E).
  - intros k Hk. destruct (K k Hk) as (c & E & _).
    exists c, (mask_col fl c). split; [exact E |]. split.
    + rewrite lookup_keyed. apply mem_In in Hk. rewrite Hk.
      unfold pick. now rewrite lookup_mask_rows, E.
    + intros j. apply mask_col_rows. rewrite Lf.
      symmetry. apply (all_len_lookup _ _ _ _ Hn E).
Qed.

End OutlierReport.

(** ** A frame that lacks a key column *)

Section MissingKey.

Import Pd Frame Notebook.

Lemma getitems_missing df ks k :
  In k ks -> lookup df k = None ->
  exists k', In k' ks /\ lookup df k' = None /\
             getitems df ks = Err (KeyError k').
Proof.
  unfold getitems.
  induction ks as [| k0 ks IH]; intros Hk E; [easy |]. cbn [rmap].
  unfold getitem at 1. destruct (lookup df k0) as [c0 |] eqn:E0.
  - destruct Hk as [-> | Hk]; [congruence |].
    destruct (IH Hk E) as (k' & Hk' & E' & R). exists k'.
    split; [now right |]. split; [exact E' |].
    cbn [rbind]. now rewrite R.
  - exists k0. split; [now left |]. now split.
Qed.

(** X4. On a frame that lacks a key column, cell 3 still gives its report,
    and cell 5 raises [KeyError] for an absent key column at its first
    statement, the read-only detector, so before any assignment to [df];
    the Normalizer on its own raises [KeyError] for an absent key column
    too. *)
Theorem absent_key_column_raises_KeyError df k :
  In k key_columns ->
  lookup df k = None ->
  profile df = Ok (missing_report df, df) /\
  (exists k', In k' key_columns /\ lookup df k' = None /\
              detect_outliers df = Err (KeyError k') /\
              clean df = Err (KeyError k') /\
              pipeline df = Err (KeyError k')) /\
  (exists k', In k' key_columns /\ lookup df k' = None /\
              normalize df = Err (KeyError k')).
Proof.
  intros Hk E. split; [reflexivity |]. split.
  - destruct (getitems_missing df key_columns k Hk E) as (k' & Hk' & E' & R).
    exists k'. split; [exact Hk' |]. split; [exact E' |].
    assert (D : detect_outliers df = Err (KeyError k')).
    { rewrite detect_outliers_run. unfold outliers, z_scores. rewrite R.
      reflexivity. }
    split; [exact D |].
    assert (C : clean df = Err (KeyError k')).
    { unfold clean. cbv beta delta [bind]. now rewrite D. }
    split; [exact C |].
    unfold pipeline, profile. cbv beta delta [bind get ret].
    cbv beta iota. now rewrite C.
  - set (d := drop df ["Comments"]).
    assert (Ed : lookup d k = None).
    { unfold d. now rewrite lookup_drop, (key_not_Comments k Hk). }
    destruct (getitems_missing d key_columns k Hk Ed) as (k' & Hk' & E' & R).
    exists k'. split; [exact Hk' |]. split.
    + unfold d in E'. now rewrite lookup_drop, (key_not_Comments k' Hk') in E'.
    + unfold normalize, drop_comments, clip_negatives.
      cbv beta delta [bind get call put]. cbv beta iota. fold d.
      now rewrite R.
Qed.

End MissingKey.

(** ** What the profiling cell prints *)

Section PrintedReport.

Import Pd Frame Notebook.

Local Open Scope float_scope.

(** The percentage of a column without missing cells is 0, or NaN on a
    frame without rows; neither is above 5. *)
Lemma percentage_of_none n :
  (5 <? F64.of_nat 0 / F64.of_nat n * 100) = false.
Proof.
  change (F64.of_nat 0) with 0.
  rewrite ltb_spec, mul_spec, div_spec.
  change (Prim2SF 0) with (S754_zero false).
  destruct (Prim2SF (F64.of_nat n)) as [s | s | | s m e];
    try destruct s; reflexivity.
Qed.

(** X5. A row that the profiling cell prints is a row of [missing_report]
    above 5 percent, and it describes a column that has at least one
    missing cell: a column without missing cells is never printed, whatever
    the number of rows, none included; so nothing is printed for a frame
    without missing cells. *)
Theorem printed_report_lists_only_columns_with_missing_cells df :
  (forall r,
      In r (printed_missing_report df) ->
      In r (missing_report df) /\
      (5 <? Percentage r) = true /\
      0 < Missing_Values r /\
      exists c, In (label r, c) df /\ Missing_Values r = count_na c) /\
  ((forall l c, In (l, c) df -> count_na c = 0%nat) ->
   printed_missing_report df = []).
Proof.
  assert (P : forall r,
             In r (printed_missing_report df) ->
             In r (missing_report df) /\
             (5 <? Percentage r) = true /\
             0 < Missing_Values r /\
             exists c, In (label r, c) df /\ Missing_Values r = count_na c).
  { intros r H. apply printed_missing_report_rows in H.
    destruct H as (H & G). split; [exact H |]. split; [exact G |].
    rewrite missing_report_rows in H. apply in_map_iff in H.
    destruct H as ([l c] & <- & Hin). cbn [label Missing_Values fst snd].
    cbn [Percentage fst snd] in G. split; [| now exists c].
    destruct (count_na c) as [| n] eqn:E; [| lia].
    now rewrite percentage_of_none in G. }
  split; [exact P |]. intros Z.
  destruct (printed_missing_report df) as [| r rs] eqn:E; [reflexivity |].
  destruct (P r) as (_ & _ & H & c & Hin & Hc); [now left |].
  rewrite Hc, (Z _ _ Hin) in H. lia.
Qed.

End PrintedReport.

(** ** The exported file *)

Section Exporter.

Import Pd Frame Notebook.

Local Open Scope float_scope.

Lemma field_at_cleaned c i :
  numeric c = true -> nonneg_field (field_at (cleaned_column c) i).
Proof.
  destruct c as [xs | zs | ss]; intros H; try discriminate;
    unfold cleaned_column; cbn [imputed_column clipped_column field_at].
  - change nan with (clip_float nan) at 1 2. rewrite map_nth.
    destruct (is_nan (clip_float _)) eqn:N; [exact I |].
    cbn [nonneg_field]. now apply clip_float_range.
  - change 0%Z with (clip_int 0%Z). rewrite map_nth.
    cbn [nonneg_field]. apply clip_int_range.
Qed.

(** X7. In the file that cell 5 exports from a frame with unique labels,
    the header has no [Comments], and under every key column label every
    field is empty or a number at or above zero: no negative reading of a
    key column reaches the file. *)
Theorem exported_key_fields_are_never_negative df out df' :
  unique_labels df = true ->
  pipeline df = Ok (out, df') ->
  ~ In "Comments" (header (snd out)) /\
  forall r j l f,
    In r (records (snd out)) ->
    nth_error (header (snd out)) j = Some l ->
    In l key_columns ->
    nth_error r j = Some f ->
    nonneg_field f.
Proof.
  intros U H. apply distinct_NoDup in U.
  destruct (pipeline_columns _ _ _ H) as (K & -> & _ & Lb & Lk & _).
  rewrite keys_numeric_spec in K.
  unfold to_csv. cbn [header records]. split.
  - rewrite Lb. intros Hin. apply filter_In in Hin.
    destruct Hin as (_ & Hin). now cbn in Hin.
  - intros r j l f Hr Hj Hl Hf.
    apply in_map_iff in Hr. destruct Hr as (i & <- & _).
    unfold labels in Hj. rewrite nth_error_map in Hj.
    rewrite nth_error_map in Hf.
    destruct (nth_error df' j) as [[l' c'] |] eqn:Ej; [| discriminate].
    cbn [option_map fst snd] in Hj, Hf.
    injection Hj as ->. injection Hf as <-.
    assert (N : NoDup (labels df'))
      by (unfold labels in *; rewrite Lb; now apply NoDup_filter).
    pose proof (lookup_unique _ _ _ N (nth_error_In _ _ Ej)) as E.
    rewrite Lk, (key_not_Comments l Hl) in E.
    destruct (K l Hl) as (c & Ec & Hc).
    apply mem_In in Hl. rewrite Hl, Ec in E. injection E as <-.
    now apply field_at_cleaned.
Qed.

End Exporter.

(** ** Running cell 5 again *)

Section Rerun.

Import Pd Frame Notebook.

Local Open Scope float_scope.

Lemma filter_idem {A} (f : A -> bool) l :
  filter f (filter f l) = filter f l.
Proof.
  apply forallb_filter_id. apply forallb_forall. intros a H.
  now apply filter_In in H.
Qed.

(** A float column filled with a defined median and clipped has no cell
    left to fill or to clip. *)
Lemma cleaned_column_idem c :
  settled c = true -> cleaned_column (cleaned_column c) = cleaned_column c.
Proof.
  destruct c as [xs | zs | ss]; cbn [settled]; intros H; try discriminate.
  - apply orb_true_iff in H. destruct H as [N | A].
    + apply negb_true_iff in N. unfold cleaned_column.
      cbn [imputed_column clipped_column].
      set (m := F64.median (filter F64.notna xs)) in *.
      set (ys := map clip_float (map (fillna_float m) xs)).
      assert (Y : forall y, In y ys ->
                            is_nan y = false /\ (0 <=? y) = true).
      { intros y Hy. apply in_map_iff in Hy. destruct Hy as (v & <- & Hv).
        apply in_map_iff in Hv. destruct Hv as (x & <- & _).
        assert (E : is_nan (clip_float (fillna_float m x)) = false)
          by (rewrite clip_float_is_nan; now apply fillna_float_is_nan).
        split; [exact E | now apply clip_float_range]. }
      rewrite (filter_none_missing ys (fun y Hy => proj1 (Y y Hy))).
      f_equal. rewrite <- map_id. apply map_ext_in. intros y Hy.
      now apply clip_float_nonneg, Y.
    + now rewrite !(cleaned_all_missing _ A).
  - unfold cleaned_column. cbn [imputed_column clipped_column].
    rewrite map_map. f_equal. apply map_ext. intros z.
    apply clip_int_nonneg, clip_int_range.
Qed.

(** Without a defined median the second run can differ: the first run
    clips the negative infinity, and the second finds a median. *)
Example cleaned_column_not_idem :
  cleaned_column (FloatCol [infinity; neg_infinity; nan])
  = FloatCol [infinity; 0; nan] /\
  cleaned_column (FloatCol [infinity; 0; nan])
  = FloatCol [infinity; 0; infinity].
Proof. split; reflexivity. Qed.

(** X8. On a frame with unique labels whose key columns each have a
    defined median or no value at all, cell 5 run again on the frame it
    left returns, leaves that frame as it is, and exports the same file. *)
Theorem cleaning_again_changes_nothing df out df' :
  unique_labels df = true ->
  keys_settled df = true ->
  pipeline df = Ok (out, df') ->
  exists out',
    pipeline df' = Ok (out', df') /\ snd out' = snd out.
Proof.
  intros U S H. apply distinct_NoDup in U.
  destruct (pipeline_columns _ _ _ H) as (K & Hf & _ & Lb & Lk & _).
  rewrite keys_numeric_spec in K.
  unfold keys_settled in S. rewrite forallb_forall in S.
  assert (K' : keys_numeric df' = true).
  { apply keys_numeric_spec. intros k Hk. destruct (K k Hk) as (c & E & Hc).
    exists (cleaned_column c). split; [| now destruct c].
    rewrite Lk, (key_not_Comments k Hk).
    apply mem_In in Hk. now rewrite Hk, E. }
  destruct (pipeline_spec df' K') as (fl & d & _ & R & Lb2 & Lk2 & _).
  assert (E : d = df').
  { apply frame_ext.
    - unfold labels in *. rewrite Lb. now apply NoDup_filter.
    - rewrite Lb2, Lb. apply filter_idem.
    - intros l. rewrite Lk2, Lk.
      destruct (mem l ["Comments"]); [reflexivity |].
      destruct (mem l key_columns) eqn:M; [| reflexivity].
      apply mem_In in M. specialize (S l M).
      destruct (lookup df l) as [c |]; [| reflexivity].
      cbn [option_map]. now rewrite cleaned_column_idem. }
  subst d. eexists. split; [exact R |]. now rewrite Hf.
Qed.

End Rerun.

(** ** Cell 9: the means by cleaning flag *)

Section GroupKeys.

Import Pd.

Context {A : Type} (eqb leb : A -> A -> bool).
Hypothesis eqb_eq : forall a b, eqb a b = true <-> a = b.

Lemma uniques_In l a : In a (uniques eqb l) <-> In a l.
Proof.
  induction l as [| b l IH]; cbn [uniques In]; [tauto |].
  rewrite filter_In, IH, negb_true_iff. split.
  - intros [H | [H _]]; auto.
  - intros [H | H]; [now left |].
    destruct (eqb b a) eqn:E; [left; now apply eqb_eq | right; now split].
Qed.

Lemma uniques_NoDup l : NoDup (uniques eqb l).
Proof.
  induction l as [| b l IH]; cbn [uniques]; constructor.
  - intros H. apply filter_In in H. destruct H as (_ & H).
    apply negb_true_iff in H.
    assert (E : eqb b b = true) by now apply eqb_eq. congruence.
  - now apply NoDup_filter.
Qed.

Lemma insert_by_perm a l : Permutation (insert_by leb a l) (a :: l).
Proof.
  induction l as [| b l IH]; cbn [insert_by]; [reflexivity |].
  destruct (leb a b); [reflexivity |].
  rewrite IH. apply perm_swap.
Qed.

Lemma sort_by_perm l : Permutation (sort_by leb l) l.
Proof.
  induction l as [| a l IH]; cbn [sort_by]; [reflexivity |].
  rewrite insert_by_perm. now constructor.
Qed.

Lemma group_keys_In l a : In a (group_keys eqb leb l) <-> In a l.
Proof.
  unfold group_keys. rewrite <- (uniques_In l a). split; intros H.
  - now apply (Permutation_in _ (sort_by_perm _)).
  - now apply (Permutation_in _ (Permutation_sym (sort_by_perm _))).
Qed.

Lemma group_keys_NoDup l : NoDup (group_keys eqb leb l).
Proof.
  unfold group_keys.
  apply (Permutation_NoDup (Permutation_sym (sort_by_perm _))).
  apply uniques_NoDup.
Qed.

End GroupKeys.

Section CleaningImpact.

Import Pd Frame Notebook.

Local Open Scope float_scope.

Lemma insert_by_sorted a l :
  Sorted Z.le l -> Sorted Z.le (insert_by Z.leb a l).
Proof.
  intros S. induction S as [| b l S IH H]; cbn [insert_by].
  - repeat constructor.
  - destruct (Z.leb_spec a b) as [L | L].
    + constructor; [now constructor | now constructor].
    + constructor; [exact IH |].
      destruct l as [| c l]; cbn [insert_by]; [constructor; lia |].
      destruct (Z.leb a c); constructor; [lia | now inversion H].
Qed.

Lemma sort_by_sorted l : Sorted Z.le (sort_by Z.leb l).
Proof.
  induction l as [| a l IH]; cbn [sort_by]; [constructor |].
  now apply insert_by_sorted.
Qed.

(** The keys of integer flags: the distinct flags, strictly ascending. *)
Lemma group_keys_int zs :
  StronglySorted Z.lt (group_keys Z.eqb Z.leb zs) /\
  forall z, In z (group_keys Z.eqb Z.leb zs) <-> In z zs.
Proof.
  split; [| intros z; apply group_keys_In, Z.eqb_eq].
  pose proof (group_keys_NoDup Z.eqb Z.leb Z.eqb_eq zs) as N.
  assert (S : StronglySorted Z.le (group_keys Z.eqb Z.leb zs)).
  { apply Sorted_StronglySorted; [exact Z.le_trans | apply sort_by_sorted]. }
  induction S as [| a l S IH H]; constructor.
  - apply IH. now inversion N.
  - inversion N as [| ? ? Ha _]; subst. rewrite Forall_forall in *.
    intros b Hb. specialize (H b Hb).
    assert (a <> b) by (intros ->; contradiction). lia.
Qed.

Lemma group_masks_length kc :
  List.length (group_masks kc) = col_length (group_index kc).
Proof. destruct kc; cbn; now rewrite !length_map. Qed.

Lemma group_means_numeric l c masks :
  numeric c = true ->
  group_means l c masks = Ok (FloatCol (map (group_mean c) masks)).
Proof. now destruct c. Qed.

Lemma cleaning_impact_run df :
  cleaning_impact df =
  match groupby_mean df "Cleaning" ["ModA"; "ModB"] with
  | Ok ci => Ok (ci, df)
  | Err e => Err e
  end.
Proof. unfold cleaning_impact. cbv beta delta [bind get call]. reflexivity. Qed.

(** The table of cell 9, when the three columns it reads are there. *)
Lemma groupby_mean_columns df kc :
  lookup df "Cleaning" = Some kc ->
  (forall l, In l ["ModA"; "ModB"] -> present_numeric df l) ->
  groupby_mean df "Cleaning" ["ModA"; "ModB"] =
  Ok (("Cleaning", group_index kc)
        :: map (fun l =>
                  (l, FloatCol (map (group_mean (pick df l)) (group_masks kc))))
             ["ModA"; "ModB"]).
Proof.
  intros E P. unfold groupby_mean, getitem. rewrite E. cbn [rbind].
  rewrite (getitems_total _ _ P). cbn [rbind].
  rewrite (rmap_total _
             (fun lc => (fst lc,
                         FloatCol (map (group_mean (snd lc)) (group_masks kc))))).
  - cbn [rbind]. now rewrite map_map.
  - intros lc Hin. apply in_map_iff in Hin. destruct Hin as (l & <- & Hl).
    cbn [fst snd]. destruct (P l Hl) as (c & Ec & Hc).
    rewrite (pick_lookup _ _ _ Ec).
    now rewrite (group_means_numeric _ _ _ Hc).
Qed.

Lemma groupby_mean_inv df ci :
  groupby_mean df "Cleaning" ["ModA"; "ModB"] = Ok ci ->
  (exists kc, lookup df "Cleaning" = Some kc) /\
  forall l, In l ["ModA"; "ModB"] -> present_numeric df l.
Proof.
  unfold groupby_mean, getitem.
  destruct (lookup df "Cleaning") as [kc |]; [| discriminate].
  cbn [rbind].
  destruct (getitems df ["ModA"; "ModB"]) as [sub |] eqn:G; [| discriminate].
  cbn [rbind]. apply getitems_inv in G. destruct G as (-> & P).
  destruct (rmap _ _) as [means |] eqn:R; [| discriminate]. intros _.
  split; [now exists kc |]. intros l Hl. destruct (P l Hl) as (c & Ec).
  exists c. split; [exact Ec |].
  destruct (rmap_in _ _ _ R (l, pick df l)) as (b & Hb).
  { apply in_map_iff. now exists l. }
  cbn [fst snd] in Hb. rewrite (pick_lookup _ _ _ Ec) in Hb.
  now destruct c.
Qed.

(** What cell 9 returns, column by column. *)
Lemma cleaning_impact_columns df ci df' :
  cleaning_impact df = Ok (ci, df') ->
  df' = df /\
  labels ci = ["Cleaning"; "ModA"; "ModB"] /\
  exists kc,
    lookup df "Cleaning" = Some kc /\
    lookup ci "Cleaning" = Some (group_index kc) /\
    all_len (col_length (group_index kc)) ci /\
    forall l,
      In l ["ModA"; "ModB"] ->
      exists c,
        lookup df l = Some c /\ numeric c = true /\
        lookup ci l =
        Some (FloatCol (map (group_mean c) (group_masks kc))).
Proof.
  rewrite cleaning_impact_run.
  destruct (groupby_mean df "Cleaning" ["ModA"; "ModB"]) as [t |] eqn:G;
    [| discriminate].
  intros [= -> <-]. split; [reflexivity |].
  destruct (groupby_mean_inv _ _ G) as ((kc & E) & P).
  rewrite (groupby_mean_columns df kc E P) in G. apply Ok_inj in G.
  subst ci. split; [reflexivity |]. exists kc.
  split; [exact E |]. split; [reflexivity |]. split.
  - unfold all_len. repeat constructor; cbn [snd col_length];
      now rewrite length_map, group_masks_length.
  - intros l Hl. destruct (P l Hl) as (c & Ec & Hc). exists c.
    split; [exact Ec |]. split; [exact Hc |].
    rewrite <- (pick_lookup _ _ _ Ec).
    destruct Hl as [<- | [<- | []]]; reflexivity.
Qed.

(** X10. With an integer flag column, the table of cell 9 has exactly one
    row per distinct flag value, the flags strictly ascending, and the
    [ModA] and [ModB] of a row are the means over the rows of [df] that
    carry its flag (the missing cells apart), summed in row order with
    the compensation pandas applies. *)
Theorem cleaning_impact_one_row_per_flag df zs ci df' :
  lookup df "Cleaning" = Some (IntCol zs) ->
  cleaning_impact df = Ok (ci, df') ->
  exists ks,
    lookup ci "Cleaning" = Some (IntCol ks) /\
    StronglySorted Z.lt ks /\
    (forall z, In z ks <-> In z zs) /\
    forall l c,
      In l ["ModA"; "ModB"] ->
      lookup df l = Some c ->
      exists ms,
        lookup ci l = Some (FloatCol ms) /\
        Forall2 (fun k m => m = group_mean c (map (Z.eqb k) zs)) ks ms.
Proof.
  intros E H.
  destruct (cleaning_impact_columns _ _ _ H) as (_ & _ & kc & E' & Lc & _ & Lm).
  rewrite E in E'. injection E' as <-.
  exists (group_keys Z.eqb Z.leb zs). split; [exact Lc |].
  destruct (group_keys_int zs) as (S & I). split; [exact S |].
  split; [exact I |]. intros l c Hl Ec.
  destruct (Lm l Hl) as (c' & Ec' & _ & R).
  rewrite Ec in Ec'. injection Ec' as <-.
  eexists. split; [exact R |]. cbn [group_masks]. rewrite map_map.
  now apply Forall2_map_r.
Qed.

(** X11. After cell 5, cell 9 can only miss the flag column: on the frame
    cell 5 leaves, and on any frame with the same [Cleaning], [ModA] and
    [ModB] columns (the cell in between touches none of them), it returns
    whenever the loaded frame had a [Cleaning] column. *)
Theorem cleaning_impact_returns_after_cleaning df out df' d kc :
  pipeline df = Ok (out, df') ->
  lookup df "Cleaning" = Some kc ->
  (forall l, In l ["Cleaning"; "ModA"; "ModB"] -> lookup d l = lookup df' l) ->
  exists ci,
    cleaning_impact d = Ok (ci, d) /\
    lookup ci "Cleaning" = Some (group_index kc).
Proof.
  intros H E Agree.
  destruct (pipeline_columns _ _ _ H) as (K & _ & _ & _ & Lk & _).
  rewrite keys_numeric_spec in K.
  assert (Ed : lookup d "Cleaning" = Some kc).
  { rewrite Agree by (cbn; auto). now rewrite Lk. }
  assert (P : forall l, In l ["ModA"; "ModB"] -> present_numeric d l).
  { intros l Hl.
    assert (Hk : In l key_columns)
      by (destruct Hl as [<- | [<- | []]]; cbn; auto 10).
    destruct (K l Hk) as (c & Ec & Hc).
    exists (cleaned_column c). split; [| now destruct c].
    rewrite Agree by (cbn; destruct Hl as [<- | [<- | []]]; auto).
    rewrite Lk, (key_not_Comments l Hk).
    apply mem_In in Hk. now rewrite Hk, Ec. }
  eexists. split.
  - rewrite cleaning_impact_run. now rewrite (groupby_mean_columns d kc Ed P).
  - reflexivity.
Qed.

End CleaningImpact.

(** ** The order of the imputation steps *)

Section ImputerOrder.

Import Pd Frame Notebook.

Local Open Scope nb_scope.

Lemma setitem_present df k v c :
  lookup df k = Some c ->
  setitem df k v =
  map (fun lc => if String.eqb (fst lc) k then (fst lc, v) else lc) df.
Proof. intros E. unfold setitem. now rewrite E. Qed.

(** Assignments to two different columns can be swapped. *)
Lemma setitem_swap df k1 k2 v1 v2 c1 c2 :
  k1 <> k2 ->
  lookup df k1 = Some c1 -> lookup df k2 = Some c2 ->
  setitem (setitem df k1 v1) k2 v2 = setitem (setitem df k2 v2) k1 v1.
Proof.
  intros N E1 E2.
  assert (E2' : lookup (setitem df k1 v1) k2 = Some c2).
  { rewrite lookup_setitem. apply String.eqb_neq in N. now rewrite N. }
  assert (E1' : lookup (setitem df k2 v2) k1 = Some c1).
  { rewrite lookup_setitem.
    assert (N' : k2 <> k1) by congruence.
    apply String.eqb_neq in N'. now rewrite N'. }
  rewrite (setitem_present _ _ _ _ E2'), (setitem_present _ _ _ _ E1').
  rewrite (setitem_present _ _ _ _ E1), (setitem_present _ _ _ _ E2).
  rewrite !map_map. apply map_ext. intros [l c]. cbn [fst].
  destruct (String.eqb l k1) eqn:L1, (String.eqb l k2) eqn:L2; cbn [fst];
    rewrite ?L1, ?L2; try reflexivity.
  apply String.eqb_eq in L1, L2. congruence.
Qed.

(** X13. Two steps of the imputation loop on different columns commute:
    when filling [k1] and then [k2] returns, filling [k2] and then [k1]
    returns the same frame, each column being filled with the median of
    its own values whatever the order. *)
Theorem imputation_steps_commute df k1 k2 d :
  k1 <> k2 ->
  (impute_column k1 ;;; impute_column k2) df = Ok (tt, d) ->
  (impute_column k2 ;;; impute_column k1) df = Ok (tt, d).
Proof.
  intros N. unfold bind.
  destruct (impute_column k1 df) as [[u1 df1] |] eqn:R1; [| discriminate].
  intros R2. apply impute_column_inv in R1.
  destruct R1 as (c1 & E1 & H1 & ->).
  apply impute_column_inv in R2. destruct R2 as (c2 & E2 & H2 & ->).
  rewrite lookup_setitem in E2.
  assert (N1 : String.eqb k1 k2 = false) by now apply String.eqb_neq.
  rewrite N1 in E2.
  rewrite (impute_column_run df k2 c2 E2 H2).
  assert (E1' : lookup (setitem df k2 (imputed_column c2)) k1 = Some c1).
  { rewrite lookup_setitem. apply eqb_sym_false in N1. now rewrite N1. }
  rewrite (impute_column_run _ k1 c1 E1' H1).
  now rewrite (setitem_swap df k1 k2 _ _ c1 c2 N E1 E2).
Qed.

End ImputerOrder.

(** ** The further properties on the sample frames *)

Section FurtherSampleRuns.

Import Pd Frame Notebook.

Local Open Scope float_scope.

Lemma sparse_imputes :
  impute Samples.sparse = Ok (tt, Samples.sparse_imputed).
Proof. vm_compute. reflexivity. Defined.

Lemma impute_fills_only_missing_cells_witness :
  impute Samples.sparse = Ok (tt, Samples.sparse_imputed) /\
  In "WS" key_columns /\
  lookup Samples.sparse "WS" = Some (FloatCol [-5; nan; -3]) /\
  lookup Samples.sparse_imputed "WS" = Some (FloatCol [-5; -4; -3]) /\
  imputed (FloatCol [-5; nan; -3]) (FloatCol [-5; -4; -3]) /\
  lookup Samples.sparse_imputed "Tamb" = Some (FloatCol [-1.5; nan; 21]).
Proof.
  split; [exact sparse_imputes |]. split; [exact WS_is_key |].
  destruct (impute_fills_only_missing_cells _ _ _ sparse_imputes)
    as (_ & Other & Key).
  destruct (Key "WS" WS_is_key) as (c & c' & E & E' & H & _).
  vm_compute in E, E'. injection E as <-. injection E' as <-.
  split; [reflexivity |]. split; [reflexivity |]. split; [exact H |].
  rewrite (Other "Tamb" Tamb_not_key). reflexivity.
Defined.

(** The median the loop writes into [WS] of [sparse]. *)
Example sparse_WS_median :
  median "WS" (FloatCol [-5; nan; -3]) = Ok (-4) /\
  F64.median [-5; -3] = -4.
Proof. split; reflexivity. Qed.

(** On a file that has only its header the loop returns: the median of a
    column without rows is NaN and there is nothing to fill. *)
Example impute_header_only :
  median "GHI" (ObjCol []) = Ok nan /\
  impute
    [("GHI", ObjCol []); ("DNI", ObjCol []); ("DHI", ObjCol []);
     ("ModA", ObjCol []); ("ModB", ObjCol []); ("WS", ObjCol []);
     ("WSgust", ObjCol [])]
  = Ok (tt,
        [("GHI", ObjCol []); ("DNI", ObjCol []); ("DHI", ObjCol []);
         ("ModA", ObjCol []); ("ModB", ObjCol []); ("WS", ObjCol []);
         ("WSgust", ObjCol [])]).
Proof. split; reflexivity. Qed.

Lemma impute_twice_is_impute_once_witness :
  unique_labels Samples.sparse = true /\
  impute Samples.sparse = Ok (tt, Samples.sparse_imputed) /\
  impute Samples.sparse_imputed = Ok (tt, Samples.sparse_imputed).
Proof.
  split; [reflexivity |]. split; [exact sparse_imputes |].
  exact (impute_twice_is_impute_once Samples.sparse _ _ eq_refl
           sparse_imputes).
Defined.

Lemma outlier_printout_witness :
  aligned Samples.spike = true /\
  outliers Samples.spike = Ok Samples.spike_flags /\
  count (report_of Samples.spike_flags) =
  List.length (flagged (report_of Samples.spike_flags)) /\
  count (report_of Samples.spike_flags) <= len Samples.spike.
Proof.
  split; [reflexivity |]. split; [exact spike_outliers |].
  pose proof (outlier_printout_matches_the_flags Samples.spike _ eq_refl
                spike_outliers) as H.
  split; [exact (proj1 H) | exact (proj1 (proj2 H))].
Defined.

Lemma absent_key_column_witness :
  In "WS" key_columns /\
  lookup Samples.windless "WS" = None /\
  exists k', In k' key_columns /\ lookup Samples.windless k' = None /\
             detect_outliers Samples.windless = Err (KeyError k') /\
             clean Samples.windless = Err (KeyError k') /\
             pipeline Samples.windless = Err (KeyError k').
Proof.
  split; [exact WS_is_key |]. split; [reflexivity |].
  exact (proj1 (proj2 (absent_key_column_raises_KeyError
                         Samples.windless "WS" WS_is_key eq_refl))).
Defined.

Lemma GHI_row_is_printed :
  In {| label := "GHI"; Missing_Values := 3; Percentage := 100 |}
    (printed_missing_report Samples.sparse).
Proof. vm_compute. auto 10. Defined.

Lemma printed_report_witness :
  In {| label := "GHI"; Missing_Values := 3; Percentage := 100 |}
    (printed_missing_report Samples.sparse) /\
  0 < 3 /\
  exists c, In ("GHI", c) Samples.sparse /\ 3%nat = count_na c.
Proof.
  split; [exact GHI_row_is_printed |].
  exact (proj2 (proj2 (proj1 (printed_report_lists_only_columns_with_missing_cells
                                Samples.sparse) _ GHI_row_is_printed))).
Defined.

Lemma exported_key_fields_witness :
  unique_labels Samples.sparse = true /\
  pipeline Samples.sparse = Ok (Samples.sparse_out, Samples.sparse_cleaned) /\
  ~ In "Comments" (header (snd Samples.sparse_out)).
Proof.
  split; [reflexivity |]. split; [exact sparse_runs |].
  exact (proj1 (exported_key_fields_are_never_negative Samples.sparse _ _
                  eq_refl sparse_runs)).
Defined.

Lemma cleaning_again_witness :
  unique_labels Samples.sparse = true /\
  keys_settled Samples.sparse = true /\
  pipeline Samples.sparse = Ok (Samples.sparse_out, Samples.sparse_cleaned) /\
  exists out',
    pipeline Samples.sparse_cleaned = Ok (out', Samples.sparse_cleaned) /\
    snd out' = snd Samples.sparse_out.
Proof.
  split; [reflexivity |]. split; [reflexivity |].
  split; [exact sparse_runs |].
  exact (cleaning_again_changes_nothing Samples.sparse _ _ eq_refl eq_refl
           sparse_runs).
Defined.

Lemma normalize_twice_witness :
  unique_labels Samples.sparse = true /\
  normalize Samples.sparse = Ok (tt, Samples.sparse_normalized) /\
  normalize Samples.sparse_normalized = Ok (tt, Samples.sparse_normalized).
Proof.
  split; [reflexivity |]. split; [exact sparse_normalizes |].
  exact (normalize_twice Samples.sparse _ _ eq_refl sparse_normalizes).
Defined.

Lemma sparse_impact_runs :
  cleaning_impact Samples.sparse_cleaned =
  Ok (Samples.sparse_impact, Samples.sparse_cleaned).
Proof. vm_compute. reflexivity. Defined.

Lemma soiled_impact :
  cleaning_impact Samples.soiled
  = Ok ([("Cleaning", IntCol [0; 1]%Z);
         ("ModA", FloatCol [0.19999999999999998; 5]);
         ("ModB", FloatCol [2; 4])],
        Samples.soiled).
Proof. vm_compute. reflexivity. Defined.

Lemma cleaning_impact_one_row_per_flag_witness :
  lookup Samples.soiled "Cleaning" = Some (IntCol [1; 0; 0; 0]%Z) /\
  cleaning_impact Samples.soiled
  = Ok ([("Cleaning", IntCol [0; 1]%Z);
         ("ModA", FloatCol [0.19999999999999998; 5]);
         ("ModB", FloatCol [2; 4])],
        Samples.soiled) /\
  StronglySorted Z.lt [0; 1]%Z /\
  Forall2
    (fun k m =>
       m = group_mean (FloatCol [5; 0.1; 0.2; 0.3])
             (map (Z.eqb k) [1; 0; 0; 0]%Z))
    [0; 1]%Z [0.19999999999999998; 5] /\
  Forall2
    (fun k m =>
       m = group_mean (IntCol [4; 1; 2; 3]%Z) (map (Z.eqb k) [1; 0; 0; 0]%Z))
    [0; 1]%Z [2; 4].
Proof.
  split; [reflexivity |]. split; [exact soiled_impact |].
  destruct (cleaning_impact_one_row_per_flag Samples.soiled
              [1; 0; 0; 0]%Z _ _ eq_refl soiled_impact)
    as (ks & Ek & S & _ & M).
  vm_compute in Ek. injection Ek as <-. split; [exact S |].
  destruct (M "ModA" (FloatCol [5; 0.1; 0.2; 0.3])) as (ma & Ea & Fa);
    [cbn; auto | reflexivity |].
  destruct (M "ModB" (IntCol [4; 1; 2; 3]%Z)) as (mb & Eb & Fb);
    [cbn; auto | reflexivity |].
  vm_compute in Ea, Eb. injection Ea as <-. injection Eb as <-.
  split; [exact Fa | exact Fb].
Defined.

(** The sum of a group carries the rounding error of each addition into
    the next: 0.1, 0.2 and 0.3 have the mean 0.19999999999999998, where
    adding them one after the other gives 0.20000000000000004. *)
Example group_mean_is_compensated :
  group_mean (FloatCol [0.1; 0.2; 0.3]) [true; true; true]
  = 0.19999999999999998 /\
  (0.1 + 0.2 + 0.3) / 3 = 0.20000000000000004.
Proof. split; reflexivity. Qed.

Lemma cleaning_impact_returns_witness :
  pipeline Samples.sparse = Ok (Samples.sparse_out, Samples.sparse_cleaned) /\
  lookup Samples.sparse "Cleaning" = Some (IntCol [0; 1; 0]%Z) /\
  exists ci,
    cleaning_impact Samples.sparse_cleaned = Ok (ci, Samples.sparse_cleaned) /\
    lookup ci "Cleaning" = Some (group_index (IntCol [0; 1; 0]%Z)).
Proof.
  split; [exact sparse_runs |]. split; [reflexivity |].
  exact (cleaning_impact_returns_after_cleaning Samples.sparse _ _
           Samples.sparse_cleaned (IntCol [0; 1; 0]%Z)
           sparse_runs eq_refl (fun l _ => eq_refl)).
Defined.

Lemma GHI_then_WS :
  (impute_column "GHI" ;;; impute_column "WS")%nb Samples.sparse =
  Ok (tt, Pd.setitem Samples.sparse "WS" (FloatCol [-5; -4; -3])).
Proof. vm_compute. reflexivity. Defined.

Lemma imputation_steps_commute_witness :
  "GHI" <> "WS" /\
  (impute_column "GHI" ;;; impute_column "WS")%nb Samples.sparse =
    Ok (tt, Pd.setitem Samples.sparse "WS" (FloatCol [-5; -4; -3])) /\
  (impute_column "WS" ;;; impute_column "GHI")%nb Samples.sparse =
    Ok (tt, Pd.setitem Samples.sparse "WS" (FloatCol [-5; -4; -3])).
Proof.
  assert (N : "GHI" <> "WS") by discriminate.
  split; [exact N |]. split; [exact GHI_then_WS |].
  exact (imputation_steps_commute Samples.sparse "GHI" "WS" _ N GHI_then_WS).
Defined.

(** Cell 9 on [sparse] as cleaned: the flags 0 and 1, with the means of
    rows 0 and 2 and of row 1. *)
Example sparse_impact_table :
  Samples.sparse_impact =
  [("Cleaning", IntCol [0; 1]%Z);
   ("ModA", FloatCol [2; 2]);
   ("ModB", FloatCol [2; 2])].
Proof. reflexivity. Qed.

End FurtherSampleRuns.
